(** * qrbot: the KLSE report analyzer page and its analysis flow

    A shallow embedding of the two source files of the repository:

    - [src/ai/flows/analyze-klse-report.ts], the server flow that receives
      [{reportDataUri, geminiModel, apiKey}], writes the API key into the
      process environment and issues one prompt call (module [Flow]);
    - the page component [KLSEAnalyzerPage] with its handlers
      [handleFileSelect], [fileToBase64], [onSubmit] and [resetState]
      (module [Page]).

    Platform pieces the code relies on are modelled from their public
    contracts: [FileReader.readAsDataURL] (RFC 2397 data URL with an
    RFC 4648 base64 payload, module [Base64]), zod's [string], [enum] and
    [object] schemas (module [Zod]) and react-hook-form's [handleSubmit]
    and [reset]. *)

From Stdlib Require Import ZArith NArith Lia ZifyBool List Bool Ascii String.
From Stdlib.Strings Require Import Byte.
From stdpp Require Import base option list strings gmap.

#[local] Set Warnings "-register-all".

Open Scope string_scope.
Open Scope Z_scope.

(** ** JavaScript values and completions *)

Module JS.

(** The JSON-shaped fragment of JavaScript values that crosses the
    server-action boundary. *)
Inductive Value : Type :=
| VUndefined
| VNull
| VBool (b : bool)
| VNum (n : Z)
| VStr (s : string)
| VObj (fields : list (string * Value)).

(** What a [throw] can carry: an [Error] object with its [message], or
    any other value (a rejected [FileReader] hands over its event). *)
Inductive Thrown : Type :=
| ErrorObj (message : string)
| NonError (v : Value).

(** The completion of a call: a normal return or an abrupt one. *)
Inductive Completion (A : Type) : Type :=
| Returned (a : A)
| Threw (e : Thrown).
Arguments Returned {A} a.
Arguments Threw {A} e.

(** [ToBoolean] on a string: only the empty string is falsy. *)
Definition truthy (s : string) : bool :=
  match s with
  | EmptyString => false
  | String _ _ => true
  end.

(** [String.prototype.startsWith]. *)
Fixpoint startsWith (s p : string) {struct p} : bool :=
  match p, s with
  | EmptyString, _ => true
  | String c p', String d s' => if Ascii.eqb c d then startsWith s' p' else false
  | String _ _, EmptyString => false
  end.

(** [String.prototype.includes]: [m] occurs somewhere in [s]. *)
Fixpoint includes (s m : string) : bool :=
  startsWith s m ||
  match s with
  | EmptyString => false
  | String _ s' => includes s' m
  end.

(** Property lookup on an object literal; a missing key reads as
    [undefined]. *)
Fixpoint get (fields : list (string * Value)) (k : string) : Value :=
  match fields with
  | [] => VUndefined
  | (k', v) :: rest => if String.eqb k k' then v else get rest k
  end.

End JS.

(** ** Base64 (RFC 4648, standard alphabet, with padding) *)

Module Base64.

Definition alphabet : string :=
  "ABCDEFGHIJKLMNOPQRSTUVWXYZabcdefghijklmnopqrstuvwxyz0123456789+/".

Definition pad : ascii := "="%char.

(** The character of a sextet. *)
Definition encode_char (v : N) : ascii :=
  match String.get (N.to_nat v) alphabet with
  | Some c => c
  | None => pad
  end.

Fixpoint index_of (c : ascii) (s : string) (i : N) : option N :=
  match s with
  | EmptyString => None
  | String d s' => if Ascii.eqb c d then Some i else index_of c s' (N.succ i)
  end.

(** The sextet of a character, if it is in the alphabet. *)
Definition decode_char (c : ascii) : option N := index_of c alphabet 0%N.

Definition sextet1 (a : N) : N := (a / 4)%N.
Definition sextet2 (a b : N) : N := ((a mod 4) * 16 + b / 16)%N.
Definition sextet3 (b c : N) : N := ((b mod 16) * 4 + c / 64)%N.
Definition sextet4 (c : N) : N := (c mod 64)%N.

(** Three bytes become four characters; a tail of one or two bytes is
    padded with [=]. *)
Fixpoint encode (bs : list byte) : string :=
  match bs with
  | [] => EmptyString
  | [a] =>
      let a := Byte.to_N a in
      String (encode_char (sextet1 a))
        (String (encode_char (sextet2 a 0))
           (String pad (String pad EmptyString)))
  | [a; b] =>
      let a := Byte.to_N a in
      let b := Byte.to_N b in
      String (encode_char (sextet1 a))
        (String (encode_char (sextet2 a b))
           (String (encode_char (sextet3 b 0))
              (String pad EmptyString)))
  | a :: b :: c :: rest =>
      let a := Byte.to_N a in
      let b := Byte.to_N b in
      let c := Byte.to_N c in
      String (encode_char (sextet1 a))
        (String (encode_char (sextet2 a b))
           (String (encode_char (sextet3 b c))
              (String (encode_char (sextet4 c)) (encode rest))))
  end.

Definition octet1 (s1 s2 : N) : option byte := Byte.of_N (s1 * 4 + s2 / 16)%N.
Definition octet2 (s2 s3 : N) : option byte := Byte.of_N ((s2 mod 16) * 16 + s3 / 4)%N.
Definition octet3 (s3 s4 : N) : option byte := Byte.of_N ((s3 mod 4) * 64 + s4)%N.

Definition is_pad (c : ascii) : bool := Ascii.eqb c pad.

Definition is_empty (s : string) : bool :=
  match s with EmptyString => true | _ => false end.

(** Four characters become three bytes; padding is accepted only in the
    last group. Anything else is not base64. *)
Fixpoint decode (s : string) : option (list byte) :=
  match s with
  | EmptyString => Some []
  | String c1 (String c2 (String c3 (String c4 rest))) =>
      match decode_char c1, decode_char c2 with
      | Some s1, Some s2 =>
          match decode_char c3, decode_char c4 with
          | Some s3, Some s4 =>
              match octet1 s1 s2, octet2 s2 s3, octet3 s3 s4, decode rest with
              | Some a, Some b, Some c, Some bs => Some (a :: b :: c :: bs)
              | _, _, _, _ => None
              end
          | Some s3, None =>
              if is_pad c4 && is_empty rest then
                match octet1 s1 s2, octet2 s2 s3 with
                | Some a, Some b => Some [a; b]
                | _, _ => None
                end
              else None
          | None, None =>
              if is_pad c3 && is_pad c4 && is_empty rest then
                match octet1 s1 s2 with
                | Some a => Some [a]
                | None => None
                end
              else None
          | None, Some _ => None
          end
      | _, _ => None
      end
  | _ => None
  end.

End Base64.

(** ** Data URLs (RFC 2397) *)

Module DataUri.

(** [s] without its prefix [p], if it has that prefix. *)
Fixpoint stripPrefix (p s : string) {struct p} : option string :=
  match p, s with
  | EmptyString, _ => Some s
  | String c p', String d s' => if Ascii.eqb c d then stripPrefix p' s' else None
  | String _ _, EmptyString => None
  end.

(** [s] cut at the first occurrence of [sep]. *)
Fixpoint split_at (sep s : string) : option (string * string) :=
  match stripPrefix sep s with
  | Some r => Some (EmptyString, r)
  | None =>
      match s with
      | EmptyString => None
      | String c s' =>
          match split_at sep s' with
          | Some (l, r) => Some (String c l, r)
          | None => None
          end
      end
  end.

(** The MIME type and the payload of [data:<mimetype>;base64,<payload>]. *)
Definition parse (s : string) : option (string * string) :=
  match stripPrefix "data:" s with
  | Some rest => split_at ";base64," rest
  | None => None
  end.

(** The shape the spec asks of a report data URI: a [data:] scheme
    prefix, a MIME type, and a payload that is base64. *)
Definition well_formed (s : string) : bool :=
  match parse s with
  | Some (mime, payload) =>
      negb (Base64.is_empty mime) &&
      match Base64.decode payload with Some _ => true | None => false end
  | None => false
  end.

End DataUri.

(** ** zod schemas *)

Module Zod.
Import JS.

(** One validation issue: where it was raised and the message the schema
    attaches to it ([None] stands for the library's default wording). *)
Record Issue := { path : list string; message : option string }.

(** The result of [safeParse]. *)
Inductive Parsed (A : Type) : Type :=
| Valid (a : A)
| Invalid (issues : list Issue).
Arguments Valid {A} a.
Arguments Invalid {A} issues.

Definition Schema (A : Type) : Type := Value -> Parsed A.

Definition issues_of {A} (p : Parsed A) : list Issue :=
  match p with
  | Valid _ => []
  | Invalid issues => issues
  end.

Definition is_valid {A} (p : Parsed A) : bool :=
  match p with
  | Valid _ => true
  | Invalid _ => false
  end.

(** [z.string()]: any string, and nothing but a string. *)
Definition string_ : Schema string := fun v =>
  match v with
  | VStr s => Valid s
  | _ => Invalid [{| path := []; message := None |}]
  end.

(** [.min(n, {message})] on a string schema. Strings are held as UTF-8
    bytes; for the bound 1 used by the page, "at least one byte" and
    JavaScript's "length at least 1" are the same condition. *)
Definition min (n : nat) (msg : string) (sch : Schema string) : Schema string := fun v =>
  match sch v with
  | Valid s =>
      if (n <=? String.length s)%nat then Valid s
      else Invalid [{| path := []; message := Some msg |}]
  | Invalid issues => Invalid issues
  end.

Fixpoint assoc {A} (table : list (string * A)) (s : string) : option A :=
  match table with
  | [] => None
  | (k, a) :: rest => if String.eqb s k then Some a else assoc rest s
  end.

(** [z.enum([...])]: a string that is one of the listed literals; the
    table gives each literal its member of the inferred union type. *)
Definition enum {A} (table : list (string * A)) : Schema A := fun v =>
  match v with
  | VStr s =>
      match assoc table s with
      | Some a => Valid a
      | None => Invalid [{| path := []; message := None |}]
      end
  | _ => Invalid [{| path := []; message := None |}]
  end.

(** The issues of a field, reported under the field's key. *)
Definition under {A} (key : string) (p : Parsed A) : list Issue :=
  map (fun i => {| path := key :: path i; message := message i |}) (issues_of p).

(** [z.object({k1: s1, k2: s2})]: the value must be an object; every
    listed key is read (a missing key reads as [undefined]) and checked;
    keys that are not listed are dropped from the result. *)
Definition object2 {A B R} (mk : A -> B -> R)
    (k1 : string) (s1 : Schema A) (k2 : string) (s2 : Schema B) : Schema R := fun v =>
  match v with
  | VObj fields =>
      match s1 (get fields k1), s2 (get fields k2) with
      | Valid a, Valid b => Valid (mk a b)
      | p1, p2 => Invalid (under k1 p1 ++ under k2 p2)
      end
  | _ => Invalid [{| path := []; message := None |}]
  end.

Definition object3 {A B C R} (mk : A -> B -> C -> R)
    (k1 : string) (s1 : Schema A) (k2 : string) (s2 : Schema B)
    (k3 : string) (s3 : Schema C) : Schema R := fun v =>
  match v with
  | VObj fields =>
      match s1 (get fields k1), s2 (get fields k2), s3 (get fields k3) with
      | Valid a, Valid b, Valid c => Valid (mk a b c)
      | p1, p2, p3 => Invalid (under k1 p1 ++ under k2 p2 ++ under k3 p3)
      end
  | _ => Invalid [{| path := []; message := None |}]
  end.

Definition object1 {A R} (mk : A -> R) (k1 : string) (s1 : Schema A) : Schema R := fun v =>
  match v with
  | VObj fields =>
      match s1 (get fields k1) with
      | Valid a => Valid (mk a)
      | p1 => Invalid (under k1 p1)
      end
  | _ => Invalid [{| path := []; message := None |}]
  end.

End Zod.

(** ** The two Gemini models both schemas enumerate *)

Inductive GeminiModel : Type :=
| Gemini25Pro
| Gemini25Flash.

Definition model_name (m : GeminiModel) : string :=
  match m with
  | Gemini25Pro => "gemini-2.5-pro"
  | Gemini25Flash => "gemini-2.5-flash"
  end.

(** [z.enum(['gemini-2.5-pro', 'gemini-2.5-flash'])] *)
Definition geminiModelEnum : Zod.Schema GeminiModel :=
  Zod.enum [("gemini-2.5-pro", Gemini25Pro); ("gemini-2.5-flash", Gemini25Flash)].

(** ** The analysis flow (src/ai/flows/analyze-klse-report.ts) *)

Module Flow.
Import JS.

Record AnalyzeKLSEReportInput := {
  reportDataUri : string;
  geminiModel : GeminiModel;
  apiKey : string;
}.

Record AnalyzeKLSEReportOutput := {
  blogPostHtml : string;
}.

(** [.describe(...)] attaches documentation to a schema and checks
    nothing. *)
Definition describe {A} (doc : string) (sch : Zod.Schema A) : Zod.Schema A := sch.

Definition AnalyzeKLSEReportInputSchema : Zod.Schema AnalyzeKLSEReportInput :=
  Zod.object3 Build_AnalyzeKLSEReportInput
    "reportDataUri"
      (describe "A KLSE quarterly report PDF, as a data URI that must include a MIME type and use Base64 encoding. Expected format: 'data:<mimetype>;base64,<encoded_data>'."
         Zod.string_)
    "geminiModel"
      (describe "The Gemini model to use for analysis." geminiModelEnum)
    "apiKey"
      (describe "Your Google Gemini API key." Zod.string_).

Definition AnalyzeKLSEReportOutputSchema : Zod.Schema AnalyzeKLSEReportOutput :=
  Zod.object1 Build_AnalyzeKLSEReportOutput
    "blogPostHtml" (describe "The generated blog post in HTML format." Zod.string_).

(** The input as the object a caller passes. *)
Definition input_value (i : AnalyzeKLSEReportInput) : Value :=
  VObj [("reportDataUri", VStr (reportDataUri i));
        ("geminiModel", VStr (model_name (geminiModel i)));
        ("apiKey", VStr (apiKey i))].

(** The name of the process-wide credential. *)
Definition GOOGLE_GENAI_API_KEY : string := "GOOGLE_GENAI_API_KEY".

(** What the server process does that is visible from outside the
    flow, in order. A prompt call is recorded with the environment it
    was issued under. *)
Inductive Effect : Type :=
| EnvWrite (name value : string)
| PromptCall (model : string) (input : AnalyzeKLSEReportInput) (env : gmap string string).

Record Server := {
  env : gmap string string;   (* process.env *)
  trace : list Effect;
}.

(** State and exceptions: a computation runs on the server process and
    either returns or throws. *)
Definition M (A : Type) : Type := Server -> Completion A * Server.

Definition ret {A} (a : A) : M A := fun s => (Returned a, s).

Definition throw {A} (e : Thrown) : M A := fun s => (Threw e, s).

Definition bind {A B} (m : M A) (f : A -> M B) : M B := fun s =>
  match m s with
  | (Returned a, s') => f a s'
  | (Threw e, s') => (Threw e, s')
  end.

Notation "x <- m ;; k" := (bind m (fun x => k))
  (at level 100, m at next level, right associativity).
Notation "m ;;; k" := (bind m (fun _ => k))
  (at level 100, right associativity).

(** [process.env[name] = value] *)
Definition setenv (name value : string) : M unit := fun s =>
  (Returned tt,
   {| env := <[name := value]> (env s);
      trace := trace s ++ [EnvWrite name value] |}).

Record PromptOptions := { model : string }.

Section WithModel.

(** The hosted model behind the prompt: given the environment of the
    process, the model identifier and the prompt input it yields the
    prompt's [output] (any value, [null] included) or throws. *)
Variable generate :
  gmap string string -> string -> AnalyzeKLSEReportInput -> Completion Value.

(** What the flow runtime throws when a value does not fit a schema. *)
Variable schema_error : list Zod.Issue -> Thrown.

(** [analyzeKLSEReportPrompt(input, {model})]: one outbound call. *)
Definition analyzeKLSEReportPrompt
    (input : AnalyzeKLSEReportInput) (opts : PromptOptions) : M Value := fun s =>
  (generate (env s) (model opts) input,
   {| env := env s;
      trace := trace s ++ [PromptCall (model opts) input (env s)] |}).

(** The function handed to [ai.defineFlow]. [output!] is a
    compile-time assertion only: the value is returned as it is. *)
Definition analyzeKLSEReportFlow_fn (input : AnalyzeKLSEReportInput) : M Value :=
  let apiKey_ := apiKey input in
  let reportDataUri_ := reportDataUri input in
  let geminiModel_ := geminiModel input in
  setenv GOOGLE_GENAI_API_KEY apiKey_ ;;;
  output <- analyzeKLSEReportPrompt
              {| reportDataUri := reportDataUri_;
                 geminiModel := geminiModel_;
                 apiKey := apiKey_ |}
              {| model := "googleai/" +:+ model_name geminiModel_ |} ;;
  ret output.

(** [ai.defineFlow({inputSchema, outputSchema}, fn)]: the input is
    parsed against the input schema before [fn] runs, and what [fn]
    returns is parsed against the output schema. *)
Definition defineFlow {I O} (inputSchema : Zod.Schema I) (outputSchema : Zod.Schema O)
    (fn : I -> M Value) (raw : Value) : M O :=
  match inputSchema raw with
  | Zod.Invalid issues => throw (schema_error issues)
  | Zod.Valid input =>
      out <- fn input ;;
      match outputSchema out with
      | Zod.Invalid issues => throw (schema_error issues)
      | Zod.Valid o => ret o
      end
  end.

Definition analyzeKLSEReportFlow : Value -> M AnalyzeKLSEReportOutput :=
  defineFlow AnalyzeKLSEReportInputSchema AnalyzeKLSEReportOutputSchema
    analyzeKLSEReportFlow_fn.

Definition analyzeKLSEReport (input : Value) : M AnalyzeKLSEReportOutput :=
  analyzeKLSEReportFlow input.

(** The operation accepts an input when the flow gets past its input
    schema, that is when the function of the flow is run on it. *)
Definition accepts (raw : Value) : bool :=
  Zod.is_valid (AnalyzeKLSEReportInputSchema raw).

End WithModel.

End Flow.

(** ** The page component [KLSEAnalyzerPage] *)

Module Page.
Import JS.

(** A [File]: its name, its declared MIME type and its bytes. *)
Record File := {
  name : string;
  type : string;
  content : list byte;
}.

Inductive Variant : Type := Default | Destructive.

Record Toast := {
  variant : Variant;
  title : string;
  description : string;
}.

(** [z.infer<typeof formSchema>]: what [onSubmit] receives. *)
Record FormValues := {
  apiKey : string;
  model : GeminiModel;
}.

(** What the two controls of the form currently hold. *)
Record Fields := {
  apiKeyField : string;
  modelField : string;
}.

(** The state [useForm] keeps: field values and validation errors. *)
Record FormState := {
  fields : Fields;
  errors : list Zod.Issue;
}.

Definition fields_value (f : Fields) : Value :=
  VObj [("apiKey", VStr (apiKeyField f)); ("model", VStr (modelField f))].

(** [formSchema] *)
Definition formSchema : Zod.Schema FormValues :=
  Zod.object2 Build_FormValues
    "apiKey" (Zod.min 1 "Google Gemini API 密钥是必需的。" Zod.string_)
    "model" geminiModelEnum.

(** [defaultValues] of [useForm] *)
Definition defaultValues : Fields :=
  {| apiKeyField := ""; modelField := "gemini-2.5-flash" |}.

Definition defaultForm : FormState :=
  {| fields := defaultValues; errors := [] |}.

(** The component's state: the five [useState] cells, the form, the
    value of the file input behind [fileInputRef] ([None] while the ref
    is [null]), the toasts fired so far, whether [progressInterval] is
    armed, and what went to [console.error]. *)
Record State := {
  file : option File;
  isLoading : bool;
  progress : Z;
  analysisResult : option string;
  error : option string;
  form : FormState;
  fileInputRef : option string;
  toasts : list Toast;
  progressInterval : bool;
  console : list Thrown;
}.

(** The state of the first render. *)
Definition initialState : State :=
  {| file := None;
     isLoading := false;
     progress := 0;
     analysisResult := None;
     error := None;
     form := defaultForm;
     fileInputRef := Some "";
     toasts := [];
     progressInterval := false;
     console := [] |}.

Definition setFile (v : option File) (st : State) : State :=
  {| file := v; isLoading := isLoading st; progress := progress st;
     analysisResult := analysisResult st; error := error st; form := form st;
     fileInputRef := fileInputRef st; toasts := toasts st;
     progressInterval := progressInterval st; console := console st |}.

Definition setIsLoading (v : bool) (st : State) : State :=
  {| file := file st; isLoading := v; progress := progress st;
     analysisResult := analysisResult st; error := error st; form := form st;
     fileInputRef := fileInputRef st; toasts := toasts st;
     progressInterval := progressInterval st; console := console st |}.

Definition setProgress (v : Z) (st : State) : State :=
  {| file := file st; isLoading := isLoading st; progress := v;
     analysisResult := analysisResult st; error := error st; form := form st;
     fileInputRef := fileInputRef st; toasts := toasts st;
     progressInterval := progressInterval st; console := console st |}.

Definition setAnalysisResult (v : option string) (st : State) : State :=
  {| file := file st; isLoading := isLoading st; progress := progress st;
     analysisResult := v; error := error st; form := form st;
     fileInputRef := fileInputRef st; toasts := toasts st;
     progressInterval := progressInterval st; console := console st |}.

Definition setError (v : option string) (st : State) : State :=
  {| file := file st; isLoading := isLoading st; progress := progress st;
     analysisResult := analysisResult st; error := v; form := form st;
     fileInputRef := fileInputRef st; toasts := toasts st;
     progressInterval := progressInterval st; console := console st |}.

Definition setForm (v : FormState) (st : State) : State :=
  {| file := file st; isLoading := isLoading st; progress := progress st;
     analysisResult := analysisResult st; error := error st; form := v;
     fileInputRef := fileInputRef st; toasts := toasts st;
     progressInterval := progressInterval st; console := console st |}.

Definition setFileInputRef (v : option string) (st : State) : State :=
  {| file := file st; isLoading := isLoading st; progress := progress st;
     analysisResult := analysisResult st; error := error st; form := form st;
     fileInputRef := v; toasts := toasts st;
     progressInterval := progressInterval st; console := console st |}.

(** [toast({...})] *)
Definition toast (t : Toast) (st : State) : State :=
  {| file := file st; isLoading := isLoading st; progress := progress st;
     analysisResult := analysisResult st; error := error st; form := form st;
     fileInputRef := fileInputRef st; toasts := toasts st ++ [t];
     progressInterval := progressInterval st; console := console st |}.

(** [setInterval(...)] arms the timer, [clearInterval(progressInterval)]
    disarms it. *)
Definition armInterval (v : bool) (st : State) : State :=
  {| file := file st; isLoading := isLoading st; progress := progress st;
     analysisResult := analysisResult st; error := error st; form := form st;
     fileInputRef := fileInputRef st; toasts := toasts st;
     progressInterval := v; console := console st |}.

Definition clearInterval : State -> State := armInterval false.

(** [console.error(err)] *)
Definition console_error (e : Thrown) (st : State) : State :=
  {| file := file st; isLoading := isLoading st; progress := progress st;
     analysisResult := analysisResult st; error := error st; form := form st;
     fileInputRef := fileInputRef st; toasts := toasts st;
     progressInterval := progressInterval st; console := console st ++ [e] |}.

(** [if (fileInputRef.current) fileInputRef.current.value = ""] *)
Definition clearFileInput (st : State) : State :=
  match fileInputRef st with
  | Some _ => setFileInputRef (Some "") st
  | None => st
  end.

Definition invalidFileToast : Toast :=
  {| variant := Destructive;
     title := "文件类型无效";
     description := "请上传 PDF 格式的文件。" |}.

Definition handleFileSelect (selectedFile : File) (st : State) : State :=
  if negb (String.eqb (type selectedFile) "application/pdf") then
    setFile None (toast invalidFileToast st)
  else
    setFile (Some selectedFile) (setError None st).

(** [handleFileChange] and [handleDrop] both hand the first file of a
    non-empty list to [handleFileSelect]. *)
Definition handleFileChange (files : list File) (st : State) : State :=
  match files with
  | f :: _ => handleFileSelect f st
  | [] => st
  end.

Definition handleDrop (files : list File) (st : State) : State :=
  match files with
  | f :: _ => handleFileSelect f st
  | [] => st
  end.

(** The "remove file" button of the form. *)
Definition removeFile (st : State) : State :=
  clearFileInput (setFile None st).

(** How a [FileReader] read ends. *)
Inductive ReaderEvent : Type :=
| OnLoad
| OnError (event : Value).

(** [FileReader.readAsDataURL]: on success [reader.result] is the data
    URL of the file's bytes under its declared type (browsers fall back
    to [application/octet-stream] when the type is empty). *)
Definition mediaType (f : File) : string :=
  if Base64.is_empty (type f) then "application/octet-stream" else type f.

Definition readAsDataURL (f : File) : string :=
  "data:" +:+ mediaType f +:+ ";base64," +:+ Base64.encode (content f).

(** [fileToBase64]: the promise resolves with [reader.result] on
    [onload] and rejects with the event on [onerror]. *)
Definition fileToBase64 (f : File) (ev : ReaderEvent) : Completion string :=
  match ev with
  | OnLoad => Returned (readAsDataURL f)
  | OnError event => Threw (NonError event)
  end.

(** *** Asynchronous handlers

    An [async] handler runs until it finishes or reaches an [await].
    At an [await] it leaves the state it has written so far and a
    continuation; the continuation is resumed with the outcome of the
    awaited operation on the state of that later moment (timer ticks may
    have happened in between). *)

Definition Request : Type := Flow.AnalyzeKLSEReportInput.
Definition Response : Type := Flow.AnalyzeKLSEReportOutput.

Inductive Proc : Type :=
| Done (st : State) (c : Completion unit)
| AwaitRead (st : State) (f : File) (k : ReaderEvent -> State -> Proc)
| AwaitUpstream (st : State) (req : Request) (k : Completion Response -> State -> Proc).

Definition missingFileMessage : string := "请上传一份季度报告 PDF。".
Definition unknownErrorMessage : string := "发生未知错误。".
Definition failurePrefix : string := "分析失败：".

Definition analysisErrorToast : Toast :=
  {| variant := Destructive;
     title := "分析出错";
     description := "无法分析报告。请检查您的 API 密钥和文件，然后重试。" |}.

(** The callback of [setInterval(..., 500)]: the updater handed to
    [setProgress] stops the timer once 95 is reached and otherwise
    adds 5. *)
Definition progressTick (st : State) : State :=
  let prev := progress st in
  if prev >=? 95 then setProgress prev (clearInterval st)
  else setProgress (prev + 5) st.

(** [finally { clearInterval(progressInterval); setIsLoading(false); }] *)
Definition onSubmit_finally (st : State) : Proc :=
  Done (setIsLoading false (clearInterval st)) (Returned tt).

(** [catch (err) { ... }], followed by the [finally] block. *)
Definition onSubmit_catch (err : Thrown) (st : State) : Proc :=
  let st := console_error err st in
  let errorMessage :=
    match err with
    | ErrorObj message => message
    | NonError _ => unknownErrorMessage
    end in
  let st := setError (Some (failurePrefix +:+ errorMessage)) st in
  let st := toast analysisErrorToast st in
  onSubmit_finally st.

(** After [await analyzeKLSEReport(...)]. *)
Definition onSubmit_afterRequest (r : Completion Response) (st : State) : Proc :=
  match r with
  | Returned result =>
      let st := setAnalysisResult (Some (Flow.blogPostHtml result)) st in
      let st := setProgress 100 st in
      onSubmit_finally st
  | Threw err => onSubmit_catch err st
  end.

(** After [await fileToBase64(file)]. *)
Definition onSubmit_afterRead (values : FormValues) (f : File)
    (ev : ReaderEvent) (st : State) : Proc :=
  match fileToBase64 f ev with
  | Returned reportDataUri =>
      AwaitUpstream st
        {| Flow.reportDataUri := reportDataUri;
           Flow.geminiModel := model values;
           Flow.apiKey := apiKey values |}
        onSubmit_afterRequest
  | Threw err => onSubmit_catch err st
  end.

Definition onSubmit (values : FormValues) (st : State) : Proc :=
  match file st with
  | None => Done (setError (Some missingFileMessage) st) (Returned tt)
  | Some f =>
      let st := setError None st in
      let st := setAnalysisResult None st in
      let st := setIsLoading true st in
      let st := setProgress 0 st in
      let st := armInterval true st in
      AwaitRead st f (onSubmit_afterRead values f)
  end.

(** [form.handleSubmit(onSubmit)] with [zodResolver(formSchema)]: the
    field values are validated first; the handler is called with the
    parsed values only when validation passes, otherwise the issues
    become the form's errors and the handler is not called. *)
Definition handleSubmit (onValid : FormValues -> State -> Proc) (st : State) : Proc :=
  match formSchema (fields_value (fields (form st))) with
  | Zod.Valid values =>
      onValid values (setForm {| fields := fields (form st); errors := [] |} st)
  | Zod.Invalid issues =>
      Done (setForm {| fields := fields (form st); errors := issues |} st) (Returned tt)
  end.

(** [form.reset()] puts the form back to [defaultValues] and clears its
    errors. *)
Definition form_reset (st : State) : State := setForm defaultForm st.

Definition resetState (st : State) : State :=
  let st := setFile None st in
  let st := setAnalysisResult None st in
  let st := setError None st in
  let st := setIsLoading false st in
  let st := setProgress 0 st in
  let st := clearFileInput st in
  form_reset st.

(** Typing into the API key field and choosing a model in the select. *)
Definition changeApiKey (s : string) (st : State) : State :=
  setForm {| fields := {| apiKeyField := s; modelField := modelField (fields (form st)) |};
             errors := errors (form st) |} st.

Definition changeModel (m : GeminiModel) (st : State) : State :=
  setForm {| fields := {| apiKeyField := apiKeyField (fields (form st));
                          modelField := model_name m |};
             errors := errors (form st) |} st.

(** *** What is rendered *)

Inductive View : Type :=
| LoadingView (percent : Z)
| ResultView (innerHTML : string)
| FormView (selected : option File) (alert : option string) (f : FormState).

(** [{error && <Alert>...{error}...</Alert>}] *)
Definition errorAlert (e : option string) : option string :=
  match e with
  | Some msg => if truthy msg then Some msg else None
  | None => None
  end.

(** The three [return]s of the component: [if (isLoading)], then
    [if (analysisResult)], then the form. *)
Definition render (st : State) : View :=
  if isLoading st then LoadingView (progress st)
  else
    match analysisResult st with
    | Some html =>
        if truthy html then ResultView html
        else FormView (file st) (errorAlert (error st)) (form st)
    | None => FormView (file st) (errorAlert (error st)) (form st)
    end.

Definition showsForm (st : State) : bool :=
  match render st with FormView _ _ _ => true | _ => false end.

Definition showsResult (st : State) : bool :=
  match render st with ResultView _ => true | _ => false end.

(** *** Running a handler to its end *)

(** What the world does while a handler is suspended: how many timer
    ticks fire during each [await], how the read ends and what the
    upstream call yields. *)
Record Schedule := {
  ticksWhileReading : nat;
  readEnds : ReaderEvent;
  ticksWhileRequesting : nat;
  upstream : Request -> Completion Response;
}.

Record Outcome := {
  final : State;
  completion : Completion unit;
  requests : list Request;
}.

(** The timer fires only while it is armed. *)
Definition timerFires (st : State) : State :=
  if progressInterval st then progressTick st else st.

Definition ticks (n : nat) (st : State) : State := Nat.iter n timerFires st.

Fixpoint drive (sch : Schedule) (p : Proc) : Outcome :=
  match p with
  | Done st c => {| final := st; completion := c; requests := [] |}
  | AwaitRead st f k =>
      drive sch (k (readEnds sch) (ticks (ticksWhileReading sch) st))
  | AwaitUpstream st req k =>
      let o := drive sch (k (upstream sch req) (ticks (ticksWhileRequesting sch) st)) in
      {| final := final o; completion := completion o; requests := req :: requests o |}
  end.

(** *** The page as a transition system *)

Inductive Pending : Type :=
| Reading (f : File) (k : ReaderEvent -> State -> Proc)
| Requesting (req : Request) (k : Completion Response -> State -> Proc).

Record Config := {
  ui : State;
  pending : option Pending;
}.

(** Start or resume a handler: run it to its next [await]. *)
Definition launch (p : Proc) : Config :=
  match p with
  | Done st _ => {| ui := st; pending := None |}
  | AwaitRead st f k => {| ui := st; pending := Some (Reading f k) |}
  | AwaitUpstream st req k => {| ui := st; pending := Some (Requesting req k) |}
  end.

Definition initialConfig : Config := {| ui := initialState; pending := None |}.

Definition with_ui (c : Config) (st : State) : Config :=
  {| ui := st; pending := pending c |}.

(** User actions are those the rendered view offers; the timer fires
    while it is armed; a pending operation ends when the world says. *)
Inductive step : Config -> Config -> Prop :=
| step_select f c :
    showsForm (ui c) = true ->
    step c (with_ui c (handleFileSelect f (ui c)))
| step_remove c :
    showsForm (ui c) = true ->
    step c (with_ui c (removeFile (ui c)))
| step_apiKey s c :
    showsForm (ui c) = true ->
    step c (with_ui c (changeApiKey s (ui c)))
| step_model m c :
    showsForm (ui c) = true ->
    step c (with_ui c (changeModel m (ui c)))
| step_submit c :
    showsForm (ui c) = true ->
    pending c = None ->
    step c (launch (handleSubmit onSubmit (ui c)))
| step_reset c :
    showsResult (ui c) = true ->
    step c (with_ui c (resetState (ui c)))
| step_tick c :
    progressInterval (ui c) = true ->
    step c (with_ui c (progressTick (ui c)))
| step_read f k ev c :
    pending c = Some (Reading f k) ->
    step c (launch (k ev (ui c)))
| step_response req k r c :
    pending c = Some (Requesting req k) ->
    step c (launch (k r (ui c))).

Inductive reachable : Config -> Prop :=
| reachable_init : reachable initialConfig
| reachable_step c c' : reachable c -> step c c' -> reachable c'.

(** A request is in flight from the submit until its response (or the
    failure of the read) has been handled. *)
Definition inFlight (c : Config) : bool :=
  match pending c with Some _ => true | None => false end.

(** What holds of the progress in every configuration the page can be
    in: it is a multiple of 5 between 0 and 100, and while an operation
    of [onSubmit] is pending it is at most 95. *)
Definition progress_inv (c : Config) : Prop :=
  0 <= progress (ui c) <= 100 /\
  progress (ui c) mod 5 = 0 /\
  match pending c with
  | None => True
  | Some (Reading f k) =>
      progress (ui c) <= 95 /\ exists values, k = onSubmit_afterRead values f
  | Some (Requesting _ k) =>
      progress (ui c) <= 95 /\ k = onSubmit_afterRequest
  end.

(** The world ends a pending read, or answers a pending request: the
    executable forms of [step_read] and [step_response]. *)
Definition deliverRead (ev : ReaderEvent) (c : Config) : Config :=
  match pending c with
  | Some (Reading f k) => launch (k ev (ui c))
  | _ => c
  end.

Definition deliverResponse (r : Completion Response) (c : Config) : Config :=
  match pending c with
  | Some (Requesting req k) => launch (k r (ui c))
  | _ => c
  end.

(** What holds of the selection and of the pending operation in every
    configuration the page can be in: a selected file is a PDF; with
    nothing pending the page is not loading and the timer is off; a
    pending read or request is one of [onSubmit], started from validated
    form values on a PDF. *)
Definition page_inv (c : Config) : Prop :=
  (forall f, file (ui c) = Some f -> type f = "application/pdf") /\
  match pending c with
  | None => isLoading (ui c) = false /\ progressInterval (ui c) = false
  | Some (Reading f k) =>
      type f = "application/pdf" /\
      exists values, k = onSubmit_afterRead values f /\ apiKey values <> ""
  | Some (Requesting req k) =>
      k = onSubmit_afterRequest /\
      Flow.apiKey req <> "" /\
      exists bytes,
        Flow.reportDataUri req = "data:application/pdf;base64," +:+ Base64.encode bytes
  end.

End Page.

(** ** The page calling the flow *)

Module App.
Import JS.

Section WithServer.

Variable generate :
  gmap string string -> string -> Flow.AnalyzeKLSEReportInput -> Completion Value.
Variable schema_error : list Zod.Issue -> Thrown.

(** [await analyzeKLSEReport({reportDataUri, geminiModel, apiKey})] as
    the page issues it: the request object goes to the flow on the
    server, and the page gets back what the flow returns or throws. *)
Definition callFlow (s : Flow.Server) (req : Page.Request)
    : Completion Page.Response * Flow.Server :=
  Flow.analyzeKLSEReport generate schema_error (Flow.input_value req) s.

Definition serverAction (s : Flow.Server) (req : Page.Request) : Completion Page.Response :=
  fst (callFlow s req).

End WithServer.

End App.

(** ** Sample data *)

Module Sample.
Import JS.

Definition report_pdf : Page.File :=
  {| Page.name := "q3-report.pdf";
     Page.type := "application/pdf";
     Page.content := ["%"%byte; "P"%byte; "D"%byte; "F"%byte; "-"%byte] |}.

Definition notes_txt : Page.File :=
  {| Page.name := "notes.txt";
     Page.type := "text/plain";
     Page.content := ["h"%byte; "i"%byte] |}.

Definition values : Page.FormValues :=
  {| Page.apiKey := "k-123"; Page.model := Gemini25Flash |}.

(** A page on which [report_pdf] has been selected. *)
Definition selected : Page.State := Page.handleFileSelect report_pdf Page.initialState.

(** The same page once an API key has been typed. *)
Definition filled : Page.State := Page.changeApiKey "k-123" selected.

Definition input : Flow.AnalyzeKLSEReportInput :=
  {| Flow.reportDataUri := "data:application/pdf;base64,JVBERi0=";
     Flow.geminiModel := Gemini25Pro;
     Flow.apiKey := "k-123" |}.

(** An input whose [reportDataUri] is no data URI. *)
Definition input_plain_uri : Value :=
  VObj [("reportDataUri", VStr "report.pdf");
        ("geminiModel", VStr "gemini-2.5-flash");
        ("apiKey", VStr "k-123")].

(** An input whose [apiKey] is the empty string. *)
Definition input_empty_key : Value :=
  VObj [("reportDataUri", VStr "data:application/pdf;base64,JVBERi0=");
        ("geminiModel", VStr "gemini-2.5-flash");
        ("apiKey", VStr "")].

Definition server : Flow.Server :=
  {| Flow.env := {[ "GOOGLE_GENAI_API_KEY" := "stale-key" ]}; Flow.trace := [] |}.

(** A model that answers every call with the same post. *)
Definition generate (_ : gmap string string) (_ : string)
    (_ : Flow.AnalyzeKLSEReportInput) : Completion Value :=
  Returned (VObj [("blogPostHtml", VStr "<div>ok</div>")]).

Definition schema_error (_ : list Zod.Issue) : Thrown :=
  ErrorObj "Schema validation failed.".

(** The read succeeds after two ticks and the upstream call fails with
    "Unauthorized" after three more. *)
Definition unauthorized : Page.Schedule :=
  {| Page.ticksWhileReading := 2;
     Page.readEnds := Page.OnLoad;
     Page.ticksWhileRequesting := 3;
     Page.upstream := fun _ => Threw (ErrorObj "Unauthorized") |}.

(** The read succeeds and the upstream call returns a post. *)
Definition answered (html : string) : Page.Schedule :=
  {| Page.ticksWhileReading := 1;
     Page.readEnds := Page.OnLoad;
     Page.ticksWhileRequesting := 4;
     Page.upstream := fun _ => Returned {| Flow.blogPostHtml := html |} |}.

(** The page configurations along one run: the report is selected,
    a key is typed, the form is submitted and the timer fires once. *)
Definition cfg_selected : Page.Config :=
  Page.with_ui Page.initialConfig
    (Page.handleFileSelect report_pdf (Page.ui Page.initialConfig)).

Definition cfg_filled : Page.Config :=
  Page.with_ui cfg_selected (Page.changeApiKey "k-123" (Page.ui cfg_selected)).

Definition cfg_submitted : Page.Config :=
  Page.launch (Page.handleSubmit Page.onSubmit (Page.ui cfg_filled)).

Definition cfg_ticked : Page.Config :=
  Page.with_ui cfg_submitted (Page.progressTick (Page.ui cfg_submitted)).

(** The same run continued: the read ends well, then the model answers. *)
Definition cfg_requesting : Page.Config := Page.deliverRead Page.OnLoad cfg_ticked.

Definition cfg_answered : Page.Config :=
  Page.deliverResponse (Returned {| Flow.blogPostHtml := "<div>ok</div>" |}) cfg_requesting.

(** An input naming a model the flow does not know. *)
Definition input_unknown_model : Value :=
  VObj [("reportDataUri", VStr "data:application/pdf;base64,JVBERi0=");
        ("geminiModel", VStr "gemini-1.0");
        ("apiKey", VStr "k-123")].

(** A model whose output is [null]. *)
Definition generate_null (_ : gmap string string) (_ : string)
    (_ : Flow.AnalyzeKLSEReportInput) : Completion Value :=
  Returned VNull.

(** A model that refuses the key. *)
Definition generate_unauthorized (_ : gmap string string) (_ : string)
    (_ : Flow.AnalyzeKLSEReportInput) : Completion Value :=
  Threw (ErrorObj "Unauthorized").

Definition other_input : Flow.AnalyzeKLSEReportInput :=
  {| Flow.reportDataUri := "data:application/pdf;base64,JVBERi0=";
     Flow.geminiModel := Gemini25Flash;
     Flow.apiKey := "k-456" |}.

(** The read fails. *)
Definition unreadable : Page.Schedule :=
  {| Page.ticksWhileReading := 2;
     Page.readEnds := Page.OnError VNull;
     Page.ticksWhileRequesting := 0;
     Page.upstream := fun _ => Returned {| Flow.blogPostHtml := "unused" |} |}.

(** The upstream call throws a plain string. *)
Definition threw_string : Page.Schedule :=
  {| Page.ticksWhileReading := 0;
     Page.readEnds := Page.OnLoad;
     Page.ticksWhileRequesting := 25;
     Page.upstream := fun _ => Threw (NonError (VStr "boom")) |}.

(** The upstream call is the flow itself, on [server]. *)
Definition through_flow : Page.Schedule :=
  {| Page.ticksWhileReading := 1;
     Page.readEnds := Page.OnLoad;
     Page.ticksWhileRequesting := 1;
     Page.upstream := App.serverAction generate schema_error server |}.

Definition second_pdf : Page.File :=
  {| Page.name := "q4-report.pdf";
     Page.type := "application/pdf";
     Page.content := ["%"%byte; "P"%byte; "D"%byte; "F"%byte; "-"%byte; "1"%byte] |}.

End Sample.

(** * Properties *)

(** ** Base64: decoding undoes encoding *)

Section Base64Facts.
Import Base64.

Ltac Zify.zify_post_hook ::= Z.to_euclidean_division_equations.

Lemma decode_encode_char (v : N) :
  (v < 64)%N -> decode_char (encode_char v) = Some v.
Proof.
  intros Hv. rewrite <- (N2Nat.id v).
  assert (Hn : (N.to_nat v < 64)%nat) by lia.
  generalize dependent (N.to_nat v). clear v Hv. intros n Hn.
  do 64 (destruct n as [|n]; [reflexivity|]). lia.
Qed.

Lemma decode_char_pad : decode_char pad = None.
Proof. reflexivity. Qed.

Lemma sextet1_lt (a : N) : (a < 256)%N -> (sextet1 a < 64)%N.
Proof. unfold sextet1. lia. Qed.

Lemma sextet2_lt (a b : N) : (b < 256)%N -> (sextet2 a b < 64)%N.
Proof. unfold sextet2. lia. Qed.

Lemma sextet3_lt (b c : N) : (c < 256)%N -> (sextet3 b c < 64)%N.
Proof. unfold sextet3. lia. Qed.

Lemma sextet4_lt (c : N) : (sextet4 c < 64)%N.
Proof. unfold sextet4. lia. Qed.

Lemma octet1_sextets (a : byte) (b : N) :
  (b < 256)%N ->
  octet1 (sextet1 (Byte.to_N a)) (sextet2 (Byte.to_N a) b) = Some a.
Proof.
  intros Hb. unfold octet1, sextet1, sextet2.
  replace (_ + _)%N with (Byte.to_N a) by lia.
  apply Byte.of_to_N.
Qed.

Lemma octet2_sextets (a : N) (b : byte) (c : N) :
  (c < 256)%N ->
  octet2 (sextet2 a (Byte.to_N b)) (sextet3 (Byte.to_N b) c) = Some b.
Proof.
  intros Hc. pose proof (Byte.to_N_bounded b) as Hb.
  unfold octet2, sextet2, sextet3.
  replace (_ + _)%N with (Byte.to_N b) by lia.
  apply Byte.of_to_N.
Qed.

Lemma octet3_sextets (b : N) (c : byte) :
  octet3 (sextet3 b (Byte.to_N c)) (sextet4 (Byte.to_N c)) = Some c.
Proof.
  pose proof (Byte.to_N_bounded c) as Hc.
  unfold octet3, sextet3, sextet4.
  replace (_ + _)%N with (Byte.to_N c) by lia.
  apply Byte.of_to_N.
Qed.

Lemma byte_lt_256 (a : byte) : (Byte.to_N a < 256)%N.
Proof. pose proof (Byte.to_N_bounded a). lia. Qed.

Lemma decode_encode_bounded (n : nat) :
  forall bs : list byte, (length bs <= n)%nat -> decode (encode bs) = Some bs.
Proof.
  induction n as [n IH] using lt_wf_ind.
  intros [|a [|b [|c rest]]] Hlen.
  - reflexivity.
  - cbn [encode decode].
    rewrite !decode_encode_char
      by auto using sextet1_lt, sextet2_lt, byte_lt_256 with lia.
    rewrite decode_char_pad. cbn.
    rewrite octet1_sextets by lia. reflexivity.
  - cbn [encode decode].
    rewrite !decode_encode_char
      by auto using sextet1_lt, sextet2_lt, sextet3_lt, byte_lt_256 with lia.
    rewrite decode_char_pad. cbn.
    rewrite octet1_sextets by apply byte_lt_256.
    rewrite octet2_sextets by lia. reflexivity.
  - cbn [encode decode].
    rewrite !decode_encode_char
      by auto using sextet1_lt, sextet2_lt, sextet3_lt, sextet4_lt, byte_lt_256.
    rewrite octet1_sextets by apply byte_lt_256.
    rewrite octet2_sextets by apply byte_lt_256.
    rewrite octet3_sextets.
    cbn [length] in Hlen.
    rewrite (IH (length rest)) by lia. reflexivity.
Qed.

Lemma decode_encode (bs : list byte) : decode (encode bs) = Some bs.
Proof. apply (decode_encode_bounded (length bs)). lia. Qed.

End Base64Facts.

Example base64_encode_pdf_magic :
  Base64.encode (Page.content Sample.report_pdf) = "JVBERi0=".
Proof. reflexivity. Qed.

Example base64_decode_one_byte : Base64.decode "TQ==" = Some ["M"%byte].
Proof. reflexivity. Qed.

Example base64_decode_rejects_stray_pad : Base64.decode "TQ=a" = None.
Proof. reflexivity. Qed.

(** ** Strings *)

Lemma startsWith_app (p s : string) : JS.startsWith (p +:+ s) p = true.
Proof.
  induction p as [|c p IH]; [reflexivity|].
  change (JS.startsWith (String c (p +:+ s)) (String c p) = true).
  cbn [JS.startsWith]. rewrite Ascii.eqb_refl. exact IH.
Qed.

Lemma startsWith_refl (m : string) : JS.startsWith m m = true.
Proof.
  induction m as [|c m IH]; [reflexivity|].
  cbn [JS.startsWith]. rewrite Ascii.eqb_refl. exact IH.
Qed.

Lemma includes_here (s m : string) : JS.startsWith s m = true -> JS.includes s m = true.
Proof. intros H. destruct s; cbn [JS.includes]; now rewrite H. Qed.

Lemma includes_app (pre m : string) : JS.includes (pre +:+ m) m = true.
Proof.
  induction pre as [|c pre IH].
  - apply includes_here, startsWith_refl.
  - change (JS.includes (String c (pre +:+ m)) m = true).
    cbn [JS.includes]. rewrite IH. apply orb_true_r.
Qed.

(** ** File selection *)

Section FileSelection.
Import Page.

Lemma handleFileSelect_pdf (f : File) (st : State) :
  type f = "application/pdf" ->
  handleFileSelect f st = setFile (Some f) (setError None st).
Proof. intros H. unfold handleFileSelect. now rewrite H. Qed.

Lemma handleFileSelect_other (f : File) (st : State) :
  type f <> "application/pdf" ->
  handleFileSelect f st = setFile None (toast invalidFileToast st).
Proof.
  intros H. unfold handleFileSelect.
  destruct (String.eqb_spec (type f) "application/pdf") as [E|_]; [contradiction|].
  reflexivity.
Qed.

End FileSelection.

(** C1, as stated, fails: with [report_pdf] selected, choosing
    [notes_txt] (declared type [text/plain]) does not keep the selection;
    afterwards no file is selected. *)
Lemma rejected_file_clears_selection :
  Page.type Sample.notes_txt <> "application/pdf" /\
  Page.file Sample.selected = Some Sample.report_pdf /\
  Page.file (Page.handleFileSelect Sample.notes_txt Sample.selected) = None /\
  Page.file (Page.handleFileSelect Sample.notes_txt Sample.selected)
    <> Page.file Sample.selected.
Proof. repeat split; try reflexivity; discriminate. Qed.

(** C1 (amended): for every selected file whose declared MIME type is not
    [application/pdf], [handleFileSelect] fires exactly one destructive
    toast and sets the selection to "no file", whatever was selected
    before; every other component of the state is left as it was. In
    particular the selection is unchanged only when nothing was selected
    before. *)
Theorem handleFileSelect_rejects_non_pdf (f : Page.File) (st : Page.State) :
  Page.type f <> "application/pdf" ->
  Page.toasts (Page.handleFileSelect f st) = (Page.toasts st ++ [Page.invalidFileToast])%list /\
  Page.variant Page.invalidFileToast = Page.Destructive /\
  Page.file (Page.handleFileSelect f st) = None /\
  (Page.file st = None ->
   Page.file (Page.handleFileSelect f st) = Page.file st) /\
  Page.handleFileSelect f st = Page.setFile None (Page.toast Page.invalidFileToast st).
Proof.
  intros H. rewrite (handleFileSelect_other f st H).
  repeat split. intros E. now rewrite E.
Qed.

Lemma handleFileSelect_rejects_non_pdf_witness :
  Page.toasts (Page.handleFileSelect Sample.notes_txt Sample.selected)
    = (Page.toasts Sample.selected ++ [Page.invalidFileToast])%list /\
  Page.file (Page.handleFileSelect Sample.notes_txt Sample.selected) = None.
Proof.
  destruct (handleFileSelect_rejects_non_pdf Sample.notes_txt Sample.selected)
    as (Ht & _ & Hf & _).
  - discriminate.
  - split; [exact Ht | exact Hf].
Defined.

(** C10: selecting a file whose declared type is [application/pdf] clears
    the inline error and stores the file as the selection; a rejected
    selection leaves the inline error as it was and signals through one
    toast only. *)
Theorem handleFileSelect_error_state (f : Page.File) (st : Page.State) :
  (Page.type f = "application/pdf" ->
   Page.error (Page.handleFileSelect f st) = None /\
   Page.file (Page.handleFileSelect f st) = Some f /\
   Page.toasts (Page.handleFileSelect f st) = Page.toasts st) /\
  (Page.type f <> "application/pdf" ->
   Page.error (Page.handleFileSelect f st) = Page.error st /\
   Page.toasts (Page.handleFileSelect f st) = (Page.toasts st ++ [Page.invalidFileToast])%list).
Proof.
  split; intros H.
  - rewrite (handleFileSelect_pdf f st H). repeat split.
  - rewrite (handleFileSelect_other f st H). repeat split.
Qed.

Lemma handleFileSelect_error_state_witness :
  (Page.error (Page.handleFileSelect Sample.report_pdf
                 (Page.setError (Some "old") Page.initialState)) = None /\
   Page.file (Page.handleFileSelect Sample.report_pdf
                (Page.setError (Some "old") Page.initialState)) = Some Sample.report_pdf) /\
  Page.error (Page.handleFileSelect Sample.notes_txt
                (Page.setError (Some "old") Page.initialState)) = Some "old".
Proof.
  split.
  - destruct (proj1 (handleFileSelect_error_state Sample.report_pdf
                       (Page.setError (Some "old") Page.initialState)))
      as (He & Hf & _); [reflexivity|].
    split; [exact He | exact Hf].
  - destruct (proj2 (handleFileSelect_error_state Sample.notes_txt
                       (Page.setError (Some "old") Page.initialState)))
      as (He & _); [discriminate|].
    exact He.
Defined.

(** ** Reset *)

(** C6: whatever the state before, after [resetState] the file, the
    result and the error are [null], the progress is 0, [isLoading] is
    false and the form holds its default values with no errors: each of
    these components equals its value in the initial state, and the page
    shows the empty upload form again. *)
Theorem resetState_restores_initial (st : Page.State) :
  Page.file (Page.resetState st) = None /\
  Page.analysisResult (Page.resetState st) = None /\
  Page.error (Page.resetState st) = None /\
  Page.progress (Page.resetState st) = 0 /\
  Page.isLoading (Page.resetState st) = false /\
  Page.form (Page.resetState st) = Page.defaultForm /\
  Page.fields (Page.form (Page.resetState st)) = Page.defaultValues /\
  (Page.file (Page.resetState st) = Page.file Page.initialState /\
   Page.analysisResult (Page.resetState st) = Page.analysisResult Page.initialState /\
   Page.error (Page.resetState st) = Page.error Page.initialState /\
   Page.progress (Page.resetState st) = Page.progress Page.initialState /\
   Page.isLoading (Page.resetState st) = Page.isLoading Page.initialState /\
   Page.form (Page.resetState st) = Page.form Page.initialState) /\
  Page.render (Page.resetState st) = Page.render Page.initialState.
Proof.
  unfold Page.resetState, Page.form_reset, Page.clearFileInput.
  destruct (Page.fileInputRef _); repeat split.
Qed.

(** ** Timer ticks touch the progress and the timer only *)

Section Ticks.
Import Page.

Lemma state_eta (st : State) :
  setProgress (progress st) (armInterval (progressInterval st) st) = st.
Proof. now destruct st. Qed.

Lemma timerFires_shape (st : State) :
  exists p b, timerFires st = setProgress p (armInterval b st).
Proof.
  unfold timerFires, progressTick, clearInterval.
  destruct (progressInterval st) eqn:Hi.
  - destruct (progress st >=? 95).
    + exists (progress st), false. reflexivity.
    + exists (progress st + 5), true. rewrite <- Hi. now destruct st.
  - exists (progress st), false. rewrite <- Hi. symmetry. apply state_eta.
Qed.

Lemma ticks_shape (n : nat) (st : State) :
  exists p b, ticks n st = setProgress p (armInterval b st).
Proof.
  induction n as [|n (p & b & IH)].
  - exists (progress st), (progressInterval st). symmetry. apply state_eta.
  - change (ticks (S n) st) with (timerFires (ticks n st)). rewrite IH.
    destruct (timerFires_shape (setProgress p (armInterval b st))) as (p' & b' & E).
    rewrite E. exists p', b'. reflexivity.
Qed.

End Ticks.

(** ** Form validation *)

(** C8: when the API key field is empty, [handleSubmit] does not call the
    handler it wraps (the outcome is the same for every handler): it ends
    at once, having only recorded the validation issue of the [apiKey]
    field in the form's errors. With [onSubmit] as the handler nothing of
    the analysis logic runs: no upstream request is made, no read is
    started and the page state outside the form is untouched. *)
Theorem empty_api_key_blocks_submission
    (onValid : Page.FormValues -> Page.State -> Page.Proc) (st : Page.State) :
  Page.apiKeyField (Page.fields (Page.form st)) = "" ->
  exists issues,
    Page.handleSubmit onValid st
      = Page.Done (Page.setForm {| Page.fields := Page.fields (Page.form st);
                                   Page.errors := issues |} st)
                  (JS.Returned tt) /\
    In {| Zod.path := ["apiKey"];
          Zod.message := Some "Google Gemini API 密钥是必需的。" |} issues /\
    Page.handleSubmit Page.onSubmit st = Page.handleSubmit onValid st /\
    forall sch : Page.Schedule,
      Page.requests (Page.drive sch (Page.handleSubmit Page.onSubmit st)) = [] /\
      Page.isLoading (Page.final (Page.drive sch (Page.handleSubmit Page.onSubmit st)))
        = Page.isLoading st /\
      Page.error (Page.final (Page.drive sch (Page.handleSubmit Page.onSubmit st)))
        = Page.error st /\
      Page.progressInterval (Page.final (Page.drive sch (Page.handleSubmit Page.onSubmit st)))
        = Page.progressInterval st.
Proof.
  intros Hkey.
  unfold Page.handleSubmit, Page.formSchema, Zod.object2, Page.fields_value.
  rewrite Hkey. cbn.
  eexists. split; [reflexivity|].
  split; [left; reflexivity|].
  split; [reflexivity|].
  intros sch. repeat split.
Qed.

Lemma empty_api_key_blocks_submission_witness :
  Page.apiKeyField (Page.fields (Page.form Sample.selected)) = "" /\
  Page.requests (Page.drive Sample.unauthorized
                   (Page.handleSubmit Page.onSubmit Sample.selected)) = [].
Proof.
  split; [reflexivity|].
  destruct (empty_api_key_blocks_submission Page.onSubmit Sample.selected)
    as (issues & _ & _ & _ & H).
  - reflexivity.
  - exact (proj1 (H Sample.unauthorized)).
Defined.

(** With a key and a model the same form passes validation and the
    handler is reached. *)
Example filled_form_reaches_onSubmit :
  Page.requests (Page.drive (Sample.answered "<p>x</p>")
                   (Page.handleSubmit Page.onSubmit Sample.filled))
  = [{| Flow.reportDataUri := "data:application/pdf;base64,JVBERi0=";
        Flow.geminiModel := Gemini25Flash;
        Flow.apiKey := "k-123" |}].
Proof. reflexivity. Qed.

(** ** Submitting *)

Section Submit.
Import Page.

(** The request [onSubmit] sends for file [f] under form values
    [values]. *)
Lemma onSubmit_run (values : FormValues) (st : State) (f : File) (sch : Schedule) :
  file st = Some f ->
  readEnds sch = OnLoad ->
  exists p1 b1 p2 b2,
    let req := {| Flow.reportDataUri := readAsDataURL f;
                  Flow.geminiModel := model values;
                  Flow.apiKey := apiKey values |} in
    let st1 := armInterval true (setProgress 0 (setIsLoading true
                 (setAnalysisResult None (setError None st)))) in
    let st2 := setProgress p1 (armInterval b1 st1) in
    let st3 := setProgress p2 (armInterval b2 st2) in
    drive sch (onSubmit values st)
    = {| final := final (drive sch (onSubmit_afterRequest (upstream sch req) st3));
         completion := completion (drive sch (onSubmit_afterRequest (upstream sch req) st3));
         requests := req :: requests (drive sch (onSubmit_afterRequest (upstream sch req) st3)) |}.
Proof.
  intros Hf Hr. unfold onSubmit. rewrite Hf. cbn [drive]. rewrite Hr.
  unfold onSubmit_afterRead, fileToBase64.
  match goal with |- context [ticks ?n ?s] =>
    destruct (ticks_shape n s) as (p1 & b1 & E1) end.
  rewrite E1. cbn [drive].
  match goal with |- context [ticks ?n ?s] =>
    destruct (ticks_shape n s) as (p2 & b2 & E2) end.
  rewrite E2. exists p1, b1, p2, b2. reflexivity.
Qed.

End Submit.

(** C5: when the upstream call throws an [Error] with message [m], the
    submit handler returns normally (the exception does not leave it),
    the error state becomes the failure prefix followed by [m] (so it
    includes [m]) and is what the form's alert shows, one destructive
    toast is fired, loading ends with the timer stopped, and the one
    request that failed is the only one made. *)
Theorem upstream_error_is_caught
    (values : Page.FormValues) (st : Page.State) (f : Page.File)
    (sch : Page.Schedule) (m : string) :
  Page.file st = Some f ->
  Page.readEnds sch = Page.OnLoad ->
  Page.upstream sch {| Flow.reportDataUri := Page.readAsDataURL f;
                       Flow.geminiModel := Page.model values;
                       Flow.apiKey := Page.apiKey values |}
    = JS.Threw (JS.ErrorObj m) ->
  let o := Page.drive sch (Page.onSubmit values st) in
  Page.completion o = JS.Returned tt /\
  Page.error (Page.final o) = Some (Page.failurePrefix +:+ m) /\
  JS.includes (Page.failurePrefix +:+ m) m = true /\
  Page.render (Page.final o)
    = Page.FormView (Some f) (Some (Page.failurePrefix +:+ m)) (Page.form st) /\
  (Page.toasts (Page.final o) = Page.toasts st ++ [Page.analysisErrorToast])%list /\
  Page.variant Page.analysisErrorToast = Page.Destructive /\
  Page.requests o = [{| Flow.reportDataUri := Page.readAsDataURL f;
                        Flow.geminiModel := Page.model values;
                        Flow.apiKey := Page.apiKey values |}] /\
  Page.isLoading (Page.final o) = false /\
  Page.progressInterval (Page.final o) = false.
Proof.
  intros Hf Hr Hu o. subst o.
  destruct (onSubmit_run values st f sch Hf Hr) as (p1 & b1 & p2 & b2 & E).
  cbn zeta in E. rewrite E, Hu. clear E.
  cbn [Page.onSubmit_afterRequest Page.onSubmit_catch Page.onSubmit_finally
       Page.drive Page.final Page.completion Page.requests].
  split; [reflexivity|]. split; [reflexivity|].
  split; [apply includes_app|].
  split; [cbn; now rewrite Hf|].
  repeat split.
Qed.

Lemma upstream_error_is_caught_witness :
  Page.error (Page.final (Page.drive Sample.unauthorized
                            (Page.onSubmit Sample.values Sample.selected)))
    = Some (Page.failurePrefix +:+ "Unauthorized") /\
  Page.completion (Page.drive Sample.unauthorized
                     (Page.onSubmit Sample.values Sample.selected))
    = JS.Returned tt.
Proof.
  destruct (upstream_error_is_caught Sample.values Sample.selected Sample.report_pdf
              Sample.unauthorized "Unauthorized") as (Hc & He & _).
  - reflexivity.
  - reflexivity.
  - reflexivity.
  - split; [exact He | exact Hc].
Defined.

(** A failed read is caught the same way; what it rejects with is not an
    [Error], so the message is the generic one and no request is made. *)
Example read_error_is_caught :
  let o := Page.drive
             {| Page.ticksWhileReading := 1;
                Page.readEnds := Page.OnError JS.VNull;
                Page.ticksWhileRequesting := 0;
                Page.upstream := fun _ => JS.Threw (JS.ErrorObj "unused") |}
             (Page.onSubmit Sample.values Sample.selected) in
  Page.completion o = JS.Returned tt /\
  Page.error (Page.final o) = Some (Page.failurePrefix +:+ Page.unknownErrorMessage) /\
  Page.requests o = [].
Proof. repeat split. Qed.

(** C9, as stated, fails for the empty post: the response
    [{blogPostHtml: ""}] is stored, but an empty string is falsy, so the
    component does not take the result branch and shows the upload form
    instead of a result view. *)
Lemma empty_post_shows_form :
  let o := Page.drive (Sample.answered "") (Page.onSubmit Sample.values Sample.selected) in
  Page.analysisResult (Page.final o) = Some "" /\
  Page.render (Page.final o)
    = Page.FormView (Some Sample.report_pdf) None Page.defaultForm /\
  Page.render (Page.final o) <> Page.ResultView "".
Proof. repeat split. discriminate. Qed.

(** C9 (amended): for every successful upstream response
    [{blogPostHtml: h}] the [analysisResult] state is set to exactly [h]
    and the progress to 100; when [h] is not the empty string the page
    shows the result view whose inner HTML is [h], unmodified. *)
Theorem successful_response_is_displayed
    (values : Page.FormValues) (st : Page.State) (f : Page.File)
    (sch : Page.Schedule) (h : string) :
  Page.file st = Some f ->
  Page.readEnds sch = Page.OnLoad ->
  Page.upstream sch {| Flow.reportDataUri := Page.readAsDataURL f;
                       Flow.geminiModel := Page.model values;
                       Flow.apiKey := Page.apiKey values |}
    = JS.Returned {| Flow.blogPostHtml := h |} ->
  let o := Page.drive sch (Page.onSubmit values st) in
  Page.completion o = JS.Returned tt /\
  Page.analysisResult (Page.final o) = Some h /\
  Page.progress (Page.final o) = 100 /\
  Page.isLoading (Page.final o) = false /\
  Page.error (Page.final o) = None /\
  (h <> "" -> Page.render (Page.final o) = Page.ResultView h).
Proof.
  intros Hf Hr Hu o. subst o.
  destruct (onSubmit_run values st f sch Hf Hr) as (p1 & b1 & p2 & b2 & E).
  cbn zeta in E. rewrite E, Hu. clear E.
  cbn [Page.onSubmit_afterRequest Page.onSubmit_finally
       Page.drive Page.final Page.completion Page.requests Flow.blogPostHtml].
  repeat split.
  intros Hh. cbn. destruct h; [contradiction | reflexivity].
Qed.

Lemma successful_response_is_displayed_witness :
  Page.analysisResult
    (Page.final (Page.drive (Sample.answered "<div>...</div>")
                   (Page.onSubmit Sample.values Sample.selected)))
    = Some "<div>...</div>" /\
  Page.render
    (Page.final (Page.drive (Sample.answered "<div>...</div>")
                   (Page.onSubmit Sample.values Sample.selected)))
    = Page.ResultView "<div>...</div>".
Proof.
  destruct (successful_response_is_displayed Sample.values Sample.selected
              Sample.report_pdf (Sample.answered "<div>...</div>") "<div>...</div>")
    as (_ & Ha & _ & _ & _ & Hv).
  - reflexivity.
  - reflexivity.
  - reflexivity.
  - split; [exact Ha | apply Hv; discriminate].
Defined.

(** ** Encoding the selected file *)

(** C4: for every file whose declared type is [application/pdf], a
    successful read makes [fileToBase64] resolve with a string that
    starts with [data:], names that type, and carries a base64 payload
    that decodes to exactly the bytes of the file; selecting the file and
    submitting sends that very string as [reportDataUri]. *)
Theorem fileToBase64_round_trip (f : Page.File) :
  Page.type f = "application/pdf" ->
  exists uri payload : string,
    Page.fileToBase64 f Page.OnLoad = JS.Returned uri /\
    JS.startsWith uri "data:" = true /\
    DataUri.parse uri = Some ("application/pdf", payload) /\
    Base64.decode payload = Some (Page.content f) /\
    forall (values : Page.FormValues) (st : Page.State) (sch : Page.Schedule),
      Page.readEnds sch = Page.OnLoad ->
      Page.requests (Page.drive sch (Page.onSubmit values (Page.handleFileSelect f st)))
      = [{| Flow.reportDataUri := uri;
            Flow.geminiModel := Page.model values;
            Flow.apiKey := Page.apiKey values |}].
Proof.
  intros Ht.
  exists (Page.readAsDataURL f), (Base64.encode (Page.content f)).
  split; [reflexivity|].
  unfold Page.readAsDataURL, Page.mediaType. rewrite Ht.
  split; [reflexivity|]. split; [reflexivity|].
  split; [apply decode_encode|].
  intros values st sch Hr.
  rewrite (handleFileSelect_pdf f st Ht).
  destruct (onSubmit_run values (Page.setFile (Some f) (Page.setError None st)) f sch
              eq_refl Hr) as (p1 & b1 & p2 & b2 & E).
  cbn zeta in E. rewrite E. clear E.
  unfold Page.readAsDataURL, Page.mediaType. rewrite Ht.
  cbn [Page.requests]. f_equal.
  destruct (Page.upstream sch _) as [r|e]; reflexivity.
Qed.

Lemma fileToBase64_round_trip_witness :
  exists uri payload : string,
    Page.fileToBase64 Sample.report_pdf Page.OnLoad = JS.Returned uri /\
    DataUri.parse uri = Some ("application/pdf", payload) /\
    Base64.decode payload = Some (Page.content Sample.report_pdf).
Proof.
  destruct (fileToBase64_round_trip Sample.report_pdf) as (uri & payload & H1 & _ & H3 & H4 & _).
  - reflexivity.
  - exists uri, payload. repeat split; assumption.
Defined.

Example fileToBase64_report_pdf :
  Page.fileToBase64 Sample.report_pdf Page.OnLoad
  = JS.Returned "data:application/pdf;base64,JVBERi0=".
Proof. reflexivity. Qed.

(** ** The analysis flow *)

Section FlowFacts.
Import Flow.

Variable generate :
  gmap string string -> string -> AnalyzeKLSEReportInput -> JS.Completion JS.Value.
Variable schema_error : list Zod.Issue -> JS.Thrown.

(** What running the function of the flow leaves on the server. *)
Lemma analyzeKLSEReportFlow_fn_effects (input : AnalyzeKLSEReportInput) (s : Server) :
  let env' := <[GOOGLE_GENAI_API_KEY := apiKey input]> (env s) in
  let model' := "googleai/" +:+ model_name (geminiModel input) in
  analyzeKLSEReportFlow_fn generate input s
  = (generate env' model' input,
     {| env := env';
        trace := trace s ++ [EnvWrite GOOGLE_GENAI_API_KEY (apiKey input);
                             PromptCall model' input env'] |}).
Proof.
  destruct input as [u m k], s as [e t].
  unfold analyzeKLSEReportFlow_fn, bind, setenv, analyzeKLSEReportPrompt, ret.
  cbn. rewrite <- app_assoc. cbn.
  destruct (generate _ _ _); reflexivity.
Qed.

(** The input schema asks for two strings and one of the two model
    names, and for nothing else. *)
Lemma input_schema_valid (raw : JS.Value) (input : AnalyzeKLSEReportInput) :
  AnalyzeKLSEReportInputSchema raw = Zod.Valid input <->
  exists fields,
    raw = JS.VObj fields /\
    JS.get fields "reportDataUri" = JS.VStr (reportDataUri input) /\
    JS.get fields "geminiModel" = JS.VStr (model_name (geminiModel input)) /\
    JS.get fields "apiKey" = JS.VStr (apiKey input).
Proof.
  unfold AnalyzeKLSEReportInputSchema, Zod.object3, describe.
  split.
  - destruct raw as [| | | | |fields]; try discriminate.
    intros H. exists fields. split; [reflexivity|].
    unfold Zod.string_, geminiModelEnum, Zod.enum in H.
    destruct (JS.get fields "reportDataUri") as [| | | |u|]; try discriminate;
      try (destruct (JS.get fields "geminiModel") as [| | | |g|];
           try destruct (Zod.assoc _ g); discriminate).
    destruct (JS.get fields "geminiModel") as [| | | |g|]; try discriminate.
    destruct (JS.get fields "apiKey") as [| | | |k|];
      try (destruct (Zod.assoc _ g); discriminate).
    cbn [Zod.assoc] in H.
    destruct (String.eqb_spec g "gemini-2.5-pro") as [->|_].
    + injection H as <-. repeat split.
    + destruct (String.eqb_spec g "gemini-2.5-flash") as [->|_]; [|discriminate].
      injection H as <-. repeat split.
  - intros (fields & -> & Hu & Hm & Hk). rewrite Hu, Hm, Hk.
    destruct input as [u [] k]; reflexivity.
Qed.

Lemma input_value_valid (input : AnalyzeKLSEReportInput) :
  AnalyzeKLSEReportInputSchema (input_value input) = Zod.Valid input.
Proof.
  apply input_schema_valid. eexists. split; [reflexivity|]. repeat split.
Qed.

End FlowFacts.

Section FlowRun.
Import Flow.

Variable generate :
  gmap string string -> string -> AnalyzeKLSEReportInput -> JS.Completion JS.Value.
Variable schema_error : list Zod.Issue -> JS.Thrown.

(** On an input that passes the input schema the flow runs its
    function once, whatever the prompt then yields. *)
Lemma analyzeKLSEReportFlow_server (raw : JS.Value) (input : AnalyzeKLSEReportInput)
    (s : Server) :
  AnalyzeKLSEReportInputSchema raw = Zod.Valid input ->
  snd (analyzeKLSEReportFlow generate schema_error raw s)
  = snd (analyzeKLSEReportFlow_fn generate input s).
Proof.
  intros H. unfold analyzeKLSEReportFlow, defineFlow. rewrite H.
  unfold bind. destruct (analyzeKLSEReportFlow_fn generate input s) as [[out|e] s'].
  - cbn. destruct (AnalyzeKLSEReportOutputSchema out); reflexivity.
  - reflexivity.
Qed.

(** An input that fails the input schema never reaches the function:
    the flow throws and the server is untouched. *)
Lemma analyzeKLSEReportFlow_rejects (raw : JS.Value) (s : Server) :
  accepts raw = false ->
  exists issues,
    analyzeKLSEReportFlow generate schema_error raw s = (JS.Threw (schema_error issues), s).
Proof.
  unfold accepts, analyzeKLSEReportFlow, defineFlow.
  destruct (AnalyzeKLSEReportInputSchema raw) as [i|issues]; [discriminate|].
  intros _. exists issues. reflexivity.
Qed.

End FlowRun.

(** C3: on every input [{reportDataUri, geminiModel, apiKey}] that the
    flow admits, what the server does is exactly: write [apiKey] into
    [process.env.GOOGLE_GENAI_API_KEY], then make one prompt call. That
    call goes to the model ['googleai/' + geminiModel] and is issued under
    an environment whose [GOOGLE_GENAI_API_KEY] is the supplied key; the
    key is still in the environment when the flow ends. *)
Theorem flow_sets_credential_then_calls_model
    (generate : gmap string string -> string -> Flow.AnalyzeKLSEReportInput ->
                JS.Completion JS.Value)
    (schema_error : list Zod.Issue -> JS.Thrown)
    (raw : JS.Value) (input : Flow.AnalyzeKLSEReportInput) (s : Flow.Server) :
  Flow.AnalyzeKLSEReportInputSchema raw = Zod.Valid input ->
  let s' := snd (Flow.analyzeKLSEReport generate schema_error raw s) in
  let env' := <[Flow.GOOGLE_GENAI_API_KEY := Flow.apiKey input]> (Flow.env s) in
  (Flow.trace s'
   = Flow.trace s ++
     [Flow.EnvWrite Flow.GOOGLE_GENAI_API_KEY (Flow.apiKey input);
      Flow.PromptCall ("googleai/" +:+ model_name (Flow.geminiModel input)) input env'])%list /\
  env' !! Flow.GOOGLE_GENAI_API_KEY = Some (Flow.apiKey input) /\
  Flow.env s' !! Flow.GOOGLE_GENAI_API_KEY = Some (Flow.apiKey input).
Proof.
  intros H s' env'. subst s'. unfold Flow.analyzeKLSEReport.
  rewrite (analyzeKLSEReportFlow_server generate schema_error raw input s H).
  rewrite analyzeKLSEReportFlow_fn_effects. cbn [snd Flow.trace Flow.env].
  split; [reflexivity|].
  split; apply lookup_insert_eq.
Qed.

Lemma flow_sets_credential_then_calls_model_witness :
  Flow.env (snd (Flow.analyzeKLSEReport Sample.generate Sample.schema_error
                   (Flow.input_value Sample.input) Sample.server))
    !! Flow.GOOGLE_GENAI_API_KEY = Some "k-123" /\
  Flow.env Sample.server !! Flow.GOOGLE_GENAI_API_KEY = Some "stale-key".
Proof.
  split.
  - apply (flow_sets_credential_then_calls_model Sample.generate Sample.schema_error
             (Flow.input_value Sample.input) Sample.input Sample.server).
    reflexivity.
  - reflexivity.
Defined.

(** C2, as stated, fails: the operation admits an input whose
    [reportDataUri] is the plain string [report.pdf], and one whose
    [apiKey] is the empty string; on the latter it goes on to write the
    empty key into the environment and to call the model. *)
Lemma flow_accepts_plain_uri_and_empty_key :
  (Flow.accepts Sample.input_plain_uri = true /\
   JS.get [("reportDataUri", JS.VStr "report.pdf");
           ("geminiModel", JS.VStr "gemini-2.5-flash");
           ("apiKey", JS.VStr "k-123")] "reportDataUri" = JS.VStr "report.pdf" /\
   JS.startsWith "report.pdf" "data:" = false /\
   DataUri.well_formed "report.pdf" = false) /\
  (Flow.accepts Sample.input_empty_key = true /\
   Flow.AnalyzeKLSEReportInputSchema Sample.input_empty_key
   = Zod.Valid {| Flow.reportDataUri := "data:application/pdf;base64,JVBERi0=";
                  Flow.geminiModel := Gemini25Flash;
                  Flow.apiKey := "" |} /\
   fst (Flow.analyzeKLSEReport Sample.generate Sample.schema_error
          Sample.input_empty_key Sample.server)
   = JS.Returned {| Flow.blogPostHtml := "<div>ok</div>" |} /\
   exists env',
     Flow.trace (snd (Flow.analyzeKLSEReport Sample.generate Sample.schema_error
                        Sample.input_empty_key Sample.server))
     = [Flow.EnvWrite Flow.GOOGLE_GENAI_API_KEY "";
        Flow.PromptCall "googleai/gemini-2.5-flash"
          {| Flow.reportDataUri := "data:application/pdf;base64,JVBERi0=";
             Flow.geminiModel := Gemini25Flash;
             Flow.apiKey := "" |} env']).
Proof.
  split; [repeat split|].
  split; [reflexivity|]. split; [reflexivity|]. split; [reflexivity|].
  eexists. unfold Flow.analyzeKLSEReport.
  rewrite (analyzeKLSEReportFlow_server Sample.generate Sample.schema_error
             Sample.input_empty_key _ Sample.server eq_refl).
  rewrite analyzeKLSEReportFlow_fn_effects. reflexivity.
Qed.

(** ** What the page sends to the flow *)

Section PageRequests.
Import Page.

Lemma formSchema_valid (fs : Fields) (values : FormValues) :
  formSchema (fields_value fs) = Zod.Valid values ->
  apiKey values = apiKeyField fs /\ apiKeyField fs <> "".
Proof.
  unfold formSchema, Zod.object2, fields_value. cbn.
  destruct (apiKeyField fs) as [|c k]; cbn.
  - discriminate.
  - destruct (modelField fs =? "gemini-2.5-pro")%string;
      [|destruct (modelField fs =? "gemini-2.5-flash")%string; [|discriminate]];
      intros H; injection H as <-; (split; [reflexivity | discriminate]).
Qed.

Lemma readAsDataURL_starts_with_data (f : File) :
  JS.startsWith (readAsDataURL f) "data:" = true.
Proof. apply (startsWith_app "data:"). Qed.

Lemma onSubmit_requests (values : FormValues) (st : State) (sch : Schedule)
    (req : Request) :
  In req (requests (drive sch (onSubmit values st))) ->
  Flow.apiKey req = apiKey values /\
  JS.startsWith (Flow.reportDataUri req) "data:" = true.
Proof.
  unfold onSubmit. destruct (file st) as [f|]; [|intros []].
  cbn [drive]. unfold onSubmit_afterRead.
  destruct (readEnds sch) as [|event]; cbn [fileToBase64 drive requests].
  - destruct (upstream sch _) as [r|e]; cbn; intros [<-|[]];
      (split; [reflexivity | apply (readAsDataURL_starts_with_data f)]).
  - intros [].
Qed.

End PageRequests.

(** C2 (amended): the operation admits exactly the objects whose
    [reportDataUri] and [apiKey] are strings and whose [geminiModel] is
    one of the two model names; neither the shape of [reportDataUri] nor
    the emptiness of [apiKey] is checked there. What guards the key is
    the page: every request the validated submit sends carries a
    non-empty [apiKey] and a [reportDataUri] that starts with [data:]. *)
Theorem flow_input_acceptance (raw : JS.Value) :
  (Flow.accepts raw = true <->
   exists fields u m k,
     raw = JS.VObj fields /\
     JS.get fields "reportDataUri" = JS.VStr u /\
     JS.get fields "geminiModel" = JS.VStr (model_name m) /\
     JS.get fields "apiKey" = JS.VStr k) /\
  (forall (st : Page.State) (sch : Page.Schedule) (req : Page.Request),
     In req (Page.requests (Page.drive sch (Page.handleSubmit Page.onSubmit st))) ->
     Flow.apiKey req <> "" /\
     JS.startsWith (Flow.reportDataUri req) "data:" = true /\
     Flow.accepts (Flow.input_value req) = true).
Proof.
  split.
  - unfold Flow.accepts. split.
    + destruct (Flow.AnalyzeKLSEReportInputSchema raw) as [[u m k]|] eqn:E; [|discriminate].
      intros _. apply input_schema_valid in E. destruct E as (fields & E).
      exists fields, u, m, k. exact E.
    + intros (fields & u & m & k & E).
      assert (H : Flow.AnalyzeKLSEReportInputSchema raw
                  = Zod.Valid {| Flow.reportDataUri := u; Flow.geminiModel := m;
                                 Flow.apiKey := k |}).
      { apply input_schema_valid. exists fields. exact E. }
      now rewrite H.
  - intros st sch req. unfold Page.handleSubmit.
    destruct (Page.formSchema _) as [values|issues] eqn:E; [|intros []].
    apply formSchema_valid in E. destruct E as (Ek & Hne).
    intros Hin. apply onSubmit_requests in Hin. destruct Hin as (Hk & Hu).
    split; [congruence|]. split; [exact Hu|].
    unfold Flow.accepts. now rewrite input_value_valid.
Qed.

Lemma flow_input_acceptance_witness :
  Flow.accepts Sample.input_empty_key = true /\
  Flow.accepts (JS.VObj [("reportDataUri", JS.VStr "report.pdf")]) = false.
Proof.
  split.
  - apply (proj1 (flow_input_acceptance Sample.input_empty_key)).
    eexists _, _, Gemini25Flash, _. repeat split.
  - destruct (Flow.accepts (JS.VObj [("reportDataUri", JS.VStr "report.pdf")])) eqn:E;
      [|reflexivity].
    apply (proj1 (flow_input_acceptance _)) in E.
    destruct E as (fields & u & m & k & E & _ & _ & Hk).
    injection E as <-. discriminate Hk.
Defined.

(** ** The progress indicator *)

Section Progress.
Import Page.

Ltac Zify.zify_post_hook ::= Z.to_euclidean_division_equations.

Lemma progress_inv_frame (c : Config) (st : State) :
  progress st = progress (ui c) ->
  progress_inv c -> progress_inv (with_ui c st).
Proof.
  intros E (Hr & Hm & Hp). unfold progress_inv, with_ui. cbn [ui pending].
  rewrite E. auto.
Qed.

Lemma progress_handleFileSelect (f : File) (st : State) :
  progress (handleFileSelect f st) = progress st.
Proof. unfold handleFileSelect. now destruct (negb _). Qed.

Lemma progress_removeFile (st : State) : progress (removeFile st) = progress st.
Proof. unfold removeFile, clearFileInput. cbn. now destruct (fileInputRef st). Qed.

Lemma progress_resetState (st : State) : progress (resetState st) = 0.
Proof.
  unfold resetState, form_reset, clearFileInput. cbn.
  now destruct (fileInputRef st).
Qed.

Lemma progress_progressTick (st : State) :
  progress (progressTick st)
  = if progress st <? 95 then progress st + 5 else progress st.
Proof.
  unfold progressTick.
  destruct (Z.ltb_spec (progress st) 95) as [H|H].
  - replace (progress st >=? 95) with false by lia. reflexivity.
  - replace (progress st >=? 95) with true by lia. reflexivity.
Qed.

Lemma progress_inv_catch (err : JS.Thrown) (st : State) :
  0 <= progress st <= 100 -> progress st mod 5 = 0 ->
  progress_inv (launch (onSubmit_catch err st)).
Proof. intros Hr Hm. repeat split; cbn; tauto. Qed.

Lemma progress_inv_step (c c' : Config) :
  progress_inv c -> step c c' -> progress_inv c'.
Proof.
  intros Hinv Hstep.
  destruct Hstep as [f c _|c _|s c _|m c _|c _ Hp|c _|c _|f k ev c Hp|req k r c Hp].
  - apply progress_inv_frame; [apply progress_handleFileSelect | exact Hinv].
  - apply progress_inv_frame; [apply progress_removeFile | exact Hinv].
  - apply progress_inv_frame; [reflexivity | exact Hinv].
  - apply progress_inv_frame; [reflexivity | exact Hinv].
  - destruct Hinv as (Hr & Hm & _). unfold handleSubmit.
    destruct (formSchema _) as [values|issues].
    + unfold onSubmit. cbn [file setForm].
      destruct (file (ui c)) as [f|].
      * repeat split; cbn; try lia. exists values. reflexivity.
      * repeat split; cbn; tauto.
    + repeat split; cbn; tauto.
  - destruct Hinv as (Hr & Hm & Hp).
    unfold progress_inv, with_ui. cbn [ui pending].
    rewrite progress_resetState.
    repeat split; try lia.
    destruct (pending c) as [[f k|req k]|]; [| |exact I];
      (split; [lia | tauto]).
  - destruct Hinv as (Hr & Hm & Hp).
    unfold progress_inv, with_ui. cbn [ui pending].
    rewrite progress_progressTick.
    destruct (Z.ltb_spec (progress (ui c)) 95) as [H|H].
    + assert (progress (ui c) <= 90) by lia.
      split; [lia|]. split; [lia|].
      destruct (pending c) as [[f k|req k]|]; [| |exact I];
        (split; [lia | tauto]).
    + split; [lia|]. split; [exact Hm|]. exact Hp.
  - destruct Hinv as (Hr & Hm & Hq). rewrite Hp in Hq.
    destruct Hq as (Hle & values & ->).
    unfold onSubmit_afterRead. destruct ev as [|event]; cbn [fileToBase64].
    + repeat split; cbn; tauto.
    + apply progress_inv_catch; assumption.
  - destruct Hinv as (Hr & Hm & Hq). rewrite Hp in Hq.
    destruct Hq as (Hle & ->).
    destruct r as [result|err]; cbn [onSubmit_afterRequest].
    + repeat split; cbn; lia.
    + apply progress_inv_catch; assumption.
Qed.

Lemma progress_inv_reachable (c : Config) : reachable c -> progress_inv c.
Proof.
  induction 1 as [|c c' _ IH Hstep].
  - repeat split; cbn; lia.
  - exact (progress_inv_step c c' IH Hstep).
Qed.

Lemma showsForm_not_loading (st : State) : showsForm st = true -> isLoading st = false.
Proof. unfold showsForm, render. now destruct (isLoading st). Qed.

Lemma showsResult_not_loading (st : State) : showsResult st = true -> isLoading st = false.
Proof. unfold showsResult, render. now destruct (isLoading st). Qed.

(** While an operation of [onSubmit] is pending the page is loading, so
    none of the user's actions is on offer: at most one request is in
    flight at a time. *)
Lemma pending_is_loading (c : Config) :
  reachable c -> inFlight c = true -> isLoading (ui c) = true.
Proof.
  unfold inFlight.
  induction 1 as [|c c' Hreach IH Hstep]; [discriminate|].
  assert (Hidle : isLoading (ui c) = false -> pending c = None).
  { intros Hl. destruct (pending c); [|reflexivity].
    rewrite IH in Hl; [discriminate | reflexivity]. }
  destruct Hstep as [f c Hv|c Hv|s c Hv|m c Hv|c Hv Hp|c Hv|c _|f k ev c Hp|req k r c Hp].
  - apply showsForm_not_loading in Hv. cbn [with_ui pending].
    rewrite (Hidle Hv). discriminate.
  - apply showsForm_not_loading in Hv. cbn [with_ui pending].
    rewrite (Hidle Hv). discriminate.
  - apply showsForm_not_loading in Hv. cbn [with_ui pending].
    rewrite (Hidle Hv). discriminate.
  - apply showsForm_not_loading in Hv. cbn [with_ui pending].
    rewrite (Hidle Hv). discriminate.
  - unfold handleSubmit. destruct (formSchema _) as [values|issues]; [|discriminate].
    unfold onSubmit. cbn [file setForm].
    destruct (file (ui c)); [reflexivity | discriminate].
  - apply showsResult_not_loading in Hv. cbn [with_ui pending].
    rewrite (Hidle Hv). discriminate.
  - cbn [with_ui pending ui]. intros Hq. specialize (IH Hq).
    unfold progressTick. now destruct (_ >=? _).
  - destruct (progress_inv_reachable c Hreach) as (_ & _ & Hq).
    rewrite Hp in Hq. destruct Hq as (_ & values & ->).
    rewrite Hp in IH. specialize (IH eq_refl).
    unfold onSubmit_afterRead. destruct ev; cbn; [intros _; exact IH | discriminate].
  - destruct (progress_inv_reachable c Hreach) as (_ & _ & Hq).
    rewrite Hp in Hq. destruct Hq as (_ & ->).
    destruct r; cbn; discriminate.
Qed.

End Progress.

(** C7: in every reachable state of the page the progress is between 0
    and 100, and while a submitted request is in flight it is the
    percentage on display and does not exceed 95. From such a state a submit with a file selected starts a
    request at progress 0; each firing of the timer adds 5 while the
    progress is below 95 and leaves it alone from 95 on (stopping the
    timer); a successful response sets it to 100. *)
Theorem progress_within_bounds (c : Page.Config) :
  Page.reachable c ->
  0 <= Page.progress (Page.ui c) <= 100 /\
  (Page.inFlight c = true ->
   Page.render (Page.ui c) = Page.LoadingView (Page.progress (Page.ui c)) /\
   Page.progress (Page.ui c) <= 95) /\
  (forall (values : Page.FormValues) (f : Page.File),
     Page.file (Page.ui c) = Some f ->
     Page.progress (Page.ui (Page.launch (Page.onSubmit values (Page.ui c)))) = 0 /\
     Page.progressInterval (Page.ui (Page.launch (Page.onSubmit values (Page.ui c)))) = true /\
     Page.inFlight (Page.launch (Page.onSubmit values (Page.ui c))) = true) /\
  Page.progress (Page.progressTick (Page.ui c))
  = (if Page.progress (Page.ui c) <? 95
     then Page.progress (Page.ui c) + 5
     else Page.progress (Page.ui c)) /\
  (95 <= Page.progress (Page.ui c) ->
   Page.progressInterval (Page.progressTick (Page.ui c)) = false) /\
  (forall result : Page.Response,
     Page.progress
       (Page.ui (Page.launch (Page.onSubmit_afterRequest (JS.Returned result) (Page.ui c))))
     = 100).
Proof.
  intros Hreach.
  destruct (progress_inv_reachable c Hreach) as (Hr & Hm & Hp).
  split; [exact Hr|].
  split.
  { intros Hfl. split.
    - unfold Page.render. now rewrite (pending_is_loading c Hreach Hfl).
    - unfold Page.inFlight in Hfl. destruct (Page.pending c) as [[f k|req k]|];
        [tauto | tauto | discriminate]. }
  split.
  { intros values f Hf. unfold Page.onSubmit. rewrite Hf. repeat split. }
  split; [apply progress_progressTick|].
  split; [|reflexivity].
  intros H95. unfold Page.progressTick.
  replace (Page.progress (Page.ui c) >=? 95) with true by lia. reflexivity.
Qed.

Section Run.
Import Page.

Lemma sample_run_reachable : reachable Sample.cfg_ticked.
Proof.
  apply (reachable_step Sample.cfg_submitted).
  - apply (reachable_step Sample.cfg_filled).
    + apply (reachable_step Sample.cfg_selected).
      * apply (reachable_step initialConfig); [apply reachable_init|].
        exact (step_select Sample.report_pdf initialConfig eq_refl).
      * exact (step_apiKey "k-123" Sample.cfg_selected eq_refl).
    + exact (step_submit Sample.cfg_filled eq_refl eq_refl).
  - exact (step_tick Sample.cfg_submitted eq_refl).
Qed.

End Run.

Lemma progress_within_bounds_witness :
  Page.progress (Page.ui Sample.cfg_ticked) = 5 /\
  Page.inFlight Sample.cfg_ticked = true /\
  Page.render (Page.ui Sample.cfg_ticked)
    = Page.LoadingView (Page.progress (Page.ui Sample.cfg_ticked)) /\
  Page.progress (Page.ui Sample.cfg_ticked) <= 95.
Proof.
  split; [reflexivity|]. split; [reflexivity|].
  destruct (progress_within_bounds Sample.cfg_ticked sample_run_reachable)
    as (_ & H & _).
  apply H. reflexivity.
Defined.

(** * Further properties of the page *)

(** ** Every way a submit can end *)

Section SubmitOutcomes.
Import Page.

(** With a file selected a run of [onSubmit] ends in one of three ways:
    the read failed, the upstream call threw, or it returned. The state
    the handler resumes on differs from the one it left only in what the
    timer touched. *)
Lemma onSubmit_cases (values : FormValues) (st : State) (f : File) (sch : Schedule) :
  file st = Some f ->
  exists p b,
    let req := {| Flow.reportDataUri := readAsDataURL f;
                  Flow.geminiModel := model values;
                  Flow.apiKey := apiKey values |} in
    let st' := setProgress p (armInterval b (setIsLoading true
                 (setAnalysisResult None (setError None st)))) in
    (exists event,
       readEnds sch = OnError event /\
       drive sch (onSubmit values st)
       = {| final := final (drive sch (onSubmit_catch (JS.NonError event) st'));
            completion := JS.Returned tt;
            requests := [] |}) \/
    (exists e,
       readEnds sch = OnLoad /\ upstream sch req = JS.Threw e /\
       drive sch (onSubmit values st)
       = {| final := final (drive sch (onSubmit_catch e st'));
            completion := JS.Returned tt;
            requests := [req] |}) \/
    (exists result,
       readEnds sch = OnLoad /\ upstream sch req = JS.Returned result /\
       drive sch (onSubmit values st)
       = {| final := setIsLoading false (clearInterval (setProgress 100
                       (setAnalysisResult (Some (Flow.blogPostHtml result)) st')));
            completion := JS.Returned tt;
            requests := [req] |}).
Proof.
  intros Hf. unfold onSubmit. rewrite Hf. cbn [drive].
  match goal with |- context [ticks ?n ?s] =>
    destruct (ticks_shape n s) as (p1 & b1 & E1) end.
  rewrite E1. unfold onSubmit_afterRead.
  destruct (readEnds sch) as [|event] eqn:Hr; cbn [fileToBase64].
  - cbn [drive].
    match goal with |- context [ticks ?n ?s] =>
      destruct (ticks_shape n s) as (p2 & b2 & E2) end.
    rewrite E2. exists p2, b2. cbn zeta. right.
    destruct (upstream sch _) as [result|e] eqn:Hu.
    + right. exists result. repeat split.
    + left. exists e. repeat split.
  - exists p1, b1. cbn zeta. left. exists event. repeat split.
Qed.

End SubmitOutcomes.

(** X1: submitting with no file selected only sets the "please upload"
    error: the handler returns at once, no read and no request is
    started, loading and the timer are untouched, and the form shows the
    message in its alert. *)
Theorem onSubmit_without_file
    (values : Page.FormValues) (st : Page.State) (sch : Page.Schedule) :
  Page.file st = None ->
  let o := Page.drive sch (Page.onSubmit values st) in
  Page.completion o = JS.Returned tt /\
  Page.requests o = [] /\
  Page.final o = Page.setError (Some Page.missingFileMessage) st /\
  Page.toasts (Page.final o) = Page.toasts st /\
  (Page.showsForm st = true ->
   Page.render (Page.final o)
   = Page.FormView None (Some Page.missingFileMessage) (Page.form st)).
Proof.
  intros Hf o. subst o. unfold Page.onSubmit. rewrite Hf.
  cbn [Page.drive Page.final Page.completion Page.requests].
  repeat split.
  unfold Page.showsForm, Page.render. cbn. rewrite Hf.
  destruct (Page.isLoading st); [discriminate|].
  destruct (Page.analysisResult st) as [h|]; [|reflexivity].
  destruct (JS.truthy h); [discriminate | reflexivity].
Qed.

Lemma onSubmit_without_file_witness :
  Page.file (Page.removeFile Sample.filled) = None /\
  Page.requests (Page.drive Sample.unauthorized
                   (Page.onSubmit Sample.values (Page.removeFile Sample.filled))) = [] /\
  Page.error (Page.final (Page.drive Sample.unauthorized
                            (Page.onSubmit Sample.values (Page.removeFile Sample.filled))))
  = Some Page.missingFileMessage.
Proof.
  split; [reflexivity|].
  destruct (onSubmit_without_file Sample.values (Page.removeFile Sample.filled)
              Sample.unauthorized) as (_ & Hr & Hfin & _).
  - reflexivity.
  - split; [exact Hr|]. now rewrite Hfin.
Defined.

(** X2: when the read of the selected file fails, whatever event the
    reader hands over, [onSubmit] catches it: the event is logged, the
    error is the failure prefix followed by the generic "unknown error"
    text, one destructive toast is fired, no request is made, loading
    ends and the timer is stopped. *)
Theorem read_failure_is_reported
    (values : Page.FormValues) (st : Page.State) (f : Page.File)
    (sch : Page.Schedule) (event : JS.Value) :
  Page.file st = Some f ->
  Page.readEnds sch = Page.OnError event ->
  let o := Page.drive sch (Page.onSubmit values st) in
  Page.completion o = JS.Returned tt /\
  Page.requests o = [] /\
  Page.error (Page.final o) = Some (Page.failurePrefix +:+ Page.unknownErrorMessage) /\
  Page.analysisResult (Page.final o) = None /\
  (Page.toasts (Page.final o) = Page.toasts st ++ [Page.analysisErrorToast])%list /\
  (Page.console (Page.final o) = Page.console st ++ [JS.NonError event])%list /\
  Page.isLoading (Page.final o) = false /\
  Page.progressInterval (Page.final o) = false.
Proof.
  intros Hf Hr o. subst o.
  destruct (onSubmit_cases values st f sch Hf) as (p & b & H). cbn zeta in H.
  destruct H as [(ev & Hev & E)|[(e & Hl & _)|(r & Hl & _)]]; try congruence.
  rewrite Hr in Hev. injection Hev as <-. rewrite E. repeat split.
Qed.

Lemma read_failure_is_reported_witness :
  Page.requests (Page.drive Sample.unreadable
                   (Page.onSubmit Sample.values Sample.selected)) = [] /\
  Page.isLoading (Page.final (Page.drive Sample.unreadable
                                (Page.onSubmit Sample.values Sample.selected))) = false.
Proof.
  destruct (read_failure_is_reported Sample.values Sample.selected Sample.report_pdf
              Sample.unreadable JS.VNull) as (_ & Hr & _ & _ & _ & _ & Hl & _).
  - reflexivity.
  - reflexivity.
  - split; [exact Hr | exact Hl].
Defined.

(** X3: when the upstream call throws something that is not an [Error],
    the displayed error carries the generic "unknown error" text instead
    of a message; the thrown value is logged, the toast fires, and the
    failed request is the only one. *)
Theorem non_error_throw_gets_generic_message
    (values : Page.FormValues) (st : Page.State) (f : Page.File)
    (sch : Page.Schedule) (v : JS.Value) :
  Page.file st = Some f ->
  Page.readEnds sch = Page.OnLoad ->
  Page.upstream sch {| Flow.reportDataUri := Page.readAsDataURL f;
                       Flow.geminiModel := Page.model values;
                       Flow.apiKey := Page.apiKey values |}
    = JS.Threw (JS.NonError v) ->
  let o := Page.drive sch (Page.onSubmit values st) in
  Page.completion o = JS.Returned tt /\
  Page.error (Page.final o) = Some (Page.failurePrefix +:+ Page.unknownErrorMessage) /\
  Page.render (Page.final o)
  = Page.FormView (Some f) (Some (Page.failurePrefix +:+ Page.unknownErrorMessage))
      (Page.form st) /\
  (Page.console (Page.final o) = Page.console st ++ [JS.NonError v])%list /\
  (Page.toasts (Page.final o) = Page.toasts st ++ [Page.analysisErrorToast])%list /\
  length (Page.requests o) = 1%nat.
Proof.
  intros Hf Hr Hu o. subst o.
  destruct (onSubmit_cases values st f sch Hf) as (p & b & H). cbn zeta in H.
  destruct H as [(ev & Hev & _)|[(e & _ & He & E)|(r & _ & Hres & _)]]; try congruence.
  rewrite Hu in He. injection He as <-. rewrite E.
  split; [reflexivity|]. split; [reflexivity|].
  split; [cbn; now rewrite Hf|]. repeat split.
Qed.

Lemma non_error_throw_gets_generic_message_witness :
  Page.error (Page.final (Page.drive Sample.threw_string
                            (Page.onSubmit Sample.values Sample.selected)))
  = Some (Page.failurePrefix +:+ Page.unknownErrorMessage).
Proof.
  destruct (non_error_throw_gets_generic_message Sample.values Sample.selected
              Sample.report_pdf Sample.threw_string (JS.VStr "boom")) as (_ & He & _).
  - reflexivity.
  - reflexivity.
  - reflexivity.
  - exact He.
Defined.



(** ** The timer *)

Section TimerFacts.
Import Page.

Lemma timerFires_armed (st : State) :
  progressInterval st = true -> progress st < 95 ->
  progress (timerFires st) = progress st + 5 /\ progressInterval (timerFires st) = true.
Proof.
  intros Ha Hp. unfold timerFires, progressTick. rewrite Ha.
  replace (progress st >=? 95) with false by lia. split; [reflexivity | exact Ha].
Qed.

Lemma timerFires_at_ceiling (st : State) :
  progressInterval st = true -> 95 <= progress st ->
  progress (timerFires st) = progress st /\ progressInterval (timerFires st) = false.
Proof.
  intros Ha Hp. unfold timerFires, progressTick. rewrite Ha.
  replace (progress st >=? 95) with true by lia. split; reflexivity.
Qed.

Lemma timerFires_disarmed (st : State) :
  progressInterval st = false -> timerFires st = st.
Proof. intros Ha. unfold timerFires. now rewrite Ha. Qed.

End TimerFacts.

(** X5: from a freshly started submit (progress 0, timer armed) the
    progress after [n] firings of the timer is [5 * n] capped at 95; the
    timer stays armed for the first 19 firings and stops itself on the
    20th, when it finds the progress at 95. *)
Theorem progress_after_ticks (n : nat) (st : Page.State) :
  Page.progressInterval st = true ->
  Page.progress st = 0 ->
  Page.progress (Page.ticks n st) = Z.min (5 * Z.of_nat n) 95 /\
  Page.progressInterval (Page.ticks n st) = (n <=? 19)%nat.
Proof.
  intros Ha Hp. induction n as [|n (IHp & IHa)].
  - split; [exact Hp | exact Ha].
  - change (Page.ticks (S n) st) with (Page.timerFires (Page.ticks n st)).
    destruct (Nat.leb_spec n 19) as [Hn|Hn].
    + destruct (Nat.eq_dec n 19%nat) as [->|Hne].
      * destruct (timerFires_at_ceiling (Page.ticks 19 st) IHa) as (Ep & Ea); [lia|].
        rewrite Ep, Ea, IHp. split; [lia | reflexivity].
      * destruct (timerFires_armed (Page.ticks n st) IHa) as (Ep & Ea); [lia|].
        rewrite Ep, Ea, IHp. split; [lia|].
        symmetry. apply Nat.leb_le. lia.
    + rewrite (timerFires_disarmed _ IHa), IHp, IHa. split; [lia|].
      symmetry. apply Nat.leb_gt. lia.
Qed.

Lemma progress_after_ticks_witness :
  Page.progress (Page.ticks 25 (Page.ui Sample.cfg_submitted)) = 95 /\
  Page.progressInterval (Page.ticks 25 (Page.ui Sample.cfg_submitted)) = false.
Proof.
  destruct (progress_after_ticks 25 (Page.ui Sample.cfg_submitted)) as (Hp & Ha).
  - reflexivity.
  - reflexivity.
  - split; [exact Hp | exact Ha].
Defined.

(** ** What every reachable page satisfies *)

Section PageInvariant.
Import Page.

Lemma page_inv_with_ui (c : Config) (st : State) :
  (forall f, file st = Some f -> type f = "application/pdf") ->
  (pending c = None -> isLoading st = false /\ progressInterval st = false) ->
  page_inv c -> page_inv (with_ui c st).
Proof.
  intros Hfile Hidle (_ & Hp). split; [exact Hfile|].
  cbn [with_ui pending ui].
  destruct (pending c) as [[f k|req k]|]; [exact Hp | exact Hp | now apply Hidle].
Qed.

Lemma handleFileSelect_selects_pdf (f : File) (st : State) (g : File) :
  file (handleFileSelect f st) = Some g -> g = f /\ type g = "application/pdf".
Proof.
  unfold handleFileSelect.
  destruct (String.eqb_spec (type f) "application/pdf") as [E|_]; cbn.
  - intros H. injection H as <-. split; [reflexivity | exact E].
  - discriminate.
Qed.

Lemma readAsDataURL_pdf (f : File) :
  type f = "application/pdf" ->
  readAsDataURL f = "data:application/pdf;base64," +:+ Base64.encode (content f).
Proof. intros E. unfold readAsDataURL, mediaType. now rewrite E. Qed.

Lemma page_inv_step (c c' : Config) : page_inv c -> step c c' -> page_inv c'.
Proof.
  intros Hinv Hstep.
  destruct Hstep as [f c _|c _|s c _|m c _|c _ Hp|c _|c Ht|f k ev c Hp|req k r c Hp].
  - apply page_inv_with_ui; [| |exact Hinv].
    + intros g Hg. now apply handleFileSelect_selects_pdf in Hg.
    + intros Hn. destruct Hinv as (_ & Hq). rewrite Hn in Hq.
      unfold handleFileSelect. now destruct (negb _).
  - apply page_inv_with_ui; [| |exact Hinv].
    + unfold removeFile, clearFileInput. cbn.
      destruct (fileInputRef (ui c)); discriminate.
    + intros Hn. destruct Hinv as (_ & Hq). rewrite Hn in Hq.
      unfold removeFile, clearFileInput. cbn. now destruct (fileInputRef (ui c)).
  - apply page_inv_with_ui; [| |exact Hinv].
    + exact (proj1 Hinv).
    + intros Hn. destruct Hinv as (_ & Hq). now rewrite Hn in Hq.
  - apply page_inv_with_ui; [| |exact Hinv].
    + exact (proj1 Hinv).
    + intros Hn. destruct Hinv as (_ & Hq). now rewrite Hn in Hq.
  - destruct Hinv as (Hfile & Hq). rewrite Hp in Hq.
    unfold handleSubmit.
    destruct (formSchema _) as [values|issues] eqn:E.
    + apply formSchema_valid in E. destruct E as (Ek & Hne).
      unfold onSubmit. cbn [file setForm].
      destruct (file (ui c)) as [f|] eqn:Hf.
      * split; [cbn; intros g Hg; apply Hfile; congruence|].
        cbn [launch pending]. split; [now apply Hfile|].
        exists values. split; [reflexivity | congruence].
      * split; [cbn; intros g Hg; apply Hfile; congruence | exact Hq].
    + split; [exact Hfile | exact Hq].
  - apply page_inv_with_ui; [| |exact Hinv].
    + unfold resetState, form_reset, clearFileInput. cbn.
      destruct (fileInputRef (ui c)); discriminate.
    + intros Hn. destruct Hinv as (_ & Hq). rewrite Hn in Hq.
      unfold resetState, form_reset, clearFileInput. cbn.
      destruct (fileInputRef (ui c)); cbn; tauto.
  - apply page_inv_with_ui; [| |exact Hinv].
    + intros g Hg. apply (proj1 Hinv).
      unfold progressTick in Hg. now destruct (_ >=? _).
    + intros Hn. destruct Hinv as (_ & Hq). rewrite Hn in Hq.
      destruct Hq as (_ & Hq). congruence.
  - destruct Hinv as (Hfile & Hq). rewrite Hp in Hq.
    destruct Hq as (Hpdf & values & -> & Hne).
    unfold onSubmit_afterRead. destruct ev as [|event]; cbn [fileToBase64].
    + split; [exact Hfile|]. cbn [launch pending].
      split; [reflexivity|]. split; [exact Hne|].
      exists (content f). cbn. now apply readAsDataURL_pdf.
    + split; [exact Hfile|]. cbn. tauto.
  - destruct Hinv as (Hfile & Hq). rewrite Hp in Hq. destruct Hq as (-> & _).
    destruct r as [result|err]; (split; [exact Hfile|]); cbn; tauto.
Qed.

Lemma page_inv_reachable (c : Config) : reachable c -> page_inv c.
Proof.
  induction 1 as [|c c' _ IH Hstep].
  - split; [discriminate | cbn; tauto].
  - exact (page_inv_step c c' IH Hstep).
Qed.

Lemma sample_run_requesting : reachable Sample.cfg_requesting.
Proof.
  apply (reachable_step Sample.cfg_ticked); [apply sample_run_reachable|].
  exact (step_read Sample.report_pdf _ OnLoad Sample.cfg_ticked eq_refl).
Qed.

Lemma sample_run_answered : reachable Sample.cfg_answered.
Proof.
  apply (reachable_step Sample.cfg_requesting); [apply sample_run_requesting|].
  exact (step_response _ _ (JS.Returned {| Flow.blogPostHtml := "<div>ok</div>" |})
           Sample.cfg_requesting eq_refl).
Qed.

End PageInvariant.

(** X6: in every state the page can reach, a selected file has the
    declared type [application/pdf]: nothing else ever gets into the
    selection, and a file being read for a submit is such a PDF too. *)
Theorem selection_is_always_pdf (c : Page.Config) :
  Page.reachable c ->
  (forall f, Page.file (Page.ui c) = Some f -> Page.type f = "application/pdf") /\
  (forall f k, Page.pending c = Some (Page.Reading f k) ->
               Page.type f = "application/pdf").
Proof.
  intros Hreach. destruct (page_inv_reachable c Hreach) as (Hfile & Hp).
  split; [exact Hfile|].
  intros f k E. rewrite E in Hp. tauto.
Qed.

Lemma selection_is_always_pdf_witness :
  Page.file (Page.ui Sample.cfg_answered) = Some Sample.report_pdf /\
  Page.type Sample.report_pdf = "application/pdf".
Proof.
  split; [reflexivity|].
  apply (proj1 (selection_is_always_pdf Sample.cfg_answered sample_run_answered)).
  reflexivity.
Defined.

(** X7: in every state the page can reach, a request that is in flight
    carries a non-empty API key and a report data URI of the shape the
    flow documents: the [data:] scheme, the MIME type [application/pdf]
    and a payload that is valid base64; the flow's input schema admits
    it. *)
Theorem in_flight_request_is_well_formed
    (c : Page.Config) (req : Page.Request)
    (k : JS.Completion Page.Response -> Page.State -> Page.Proc) :
  Page.reachable c ->
  Page.pending c = Some (Page.Requesting req k) ->
  Flow.apiKey req <> "" /\
  JS.startsWith (Flow.reportDataUri req) "data:" = true /\
  (exists payload bytes,
     DataUri.parse (Flow.reportDataUri req) = Some ("application/pdf", payload) /\
     Base64.decode payload = Some bytes) /\
  DataUri.well_formed (Flow.reportDataUri req) = true /\
  Flow.accepts (Flow.input_value req) = true.
Proof.
  intros Hreach E. destruct (page_inv_reachable c Hreach) as (_ & Hp).
  rewrite E in Hp. destruct Hp as (_ & Hne & bytes & Hu).
  split; [exact Hne|]. rewrite Hu.
  split; [reflexivity|].
  split; [exists (Base64.encode bytes), bytes; split;
          [reflexivity | apply decode_encode]|].
  split.
  - unfold DataUri.well_formed.
    change (DataUri.parse ("data:application/pdf;base64," +:+ Base64.encode bytes))
      with (Some ("application/pdf", Base64.encode bytes)).
    cbv beta iota. now rewrite decode_encode.
  - unfold Flow.accepts. now rewrite input_value_valid.
Qed.

Lemma in_flight_request_is_well_formed_witness :
  exists req k,
    Page.pending Sample.cfg_requesting = Some (Page.Requesting req k) /\
    Flow.apiKey req = "k-123" /\
    DataUri.well_formed (Flow.reportDataUri req) = true.
Proof.
  eexists _, _. split; [reflexivity|]. split; [reflexivity|].
  refine (proj1 (proj2 (proj2 (proj2
            (in_flight_request_is_well_formed Sample.cfg_requesting _ _
               sample_run_requesting eq_refl))))).
Defined.

(** X8: in every state the page can reach, the loading view is shown
    exactly while an operation of a submit is pending, and the progress
    timer is armed only then: the page is never left on the loading view
    with nothing to wait for, no timer outlives its submit, and whenever
    nothing is pending the page shows the form or a result. *)
Theorem loading_iff_in_flight (c : Page.Config) :
  Page.reachable c ->
  (Page.isLoading (Page.ui c) = true <-> Page.inFlight c = true) /\
  (Page.progressInterval (Page.ui c) = true -> Page.inFlight c = true) /\
  (Page.inFlight c = false ->
   Page.showsForm (Page.ui c) = true \/ Page.showsResult (Page.ui c) = true).
Proof.
  intros Hreach. destruct (page_inv_reachable c Hreach) as (_ & Hp).
  assert (Hidle : Page.inFlight c = false ->
                  Page.isLoading (Page.ui c) = false /\
                  Page.progressInterval (Page.ui c) = false).
  { unfold Page.inFlight. destruct (Page.pending c); [discriminate | tauto]. }
  split; [split|split].
  - intros Hl. destruct (Page.inFlight c); [reflexivity|].
    destruct Hidle as (H & _); congruence.
  - apply pending_is_loading, Hreach.
  - intros Ht. destruct (Page.inFlight c); [reflexivity|].
    destruct Hidle as (_ & H); congruence.
  - intros Hn. destruct (Hidle Hn) as (Hl & _).
    unfold Page.showsForm, Page.showsResult, Page.render. rewrite Hl.
    destruct (Page.analysisResult (Page.ui c)) as [h|]; [|now left].
    destruct (JS.truthy h); [now right | now left].
Qed.

Lemma loading_iff_in_flight_witness :
  Page.inFlight Sample.cfg_answered = false /\
  Page.isLoading (Page.ui Sample.cfg_requesting) = true /\
  (Page.showsForm (Page.ui Sample.cfg_answered) = true \/
   Page.showsResult (Page.ui Sample.cfg_answered) = true).
Proof.
  split; [reflexivity|]. split.
  - apply (proj1 (loading_iff_in_flight Sample.cfg_requesting sample_run_requesting)).
    reflexivity.
  - apply (proj2 (proj2 (loading_iff_in_flight Sample.cfg_answered sample_run_answered))).
    reflexivity.
Defined.

(** X9: a pending submit always comes to an end: from any reachable
    state, once the read has ended and the response (if a request was
    made) has arrived, nothing is pending any more, loading is off and
    the timer is stopped - whatever the two outcomes are. *)
Theorem in_flight_submit_ends
    (c : Page.Config) (ev : Page.ReaderEvent) (r : JS.Completion Page.Response) :
  Page.reachable c ->
  Page.inFlight c = true ->
  let c' := Page.deliverResponse r (Page.deliverRead ev c) in
  Page.reachable c' /\
  Page.pending c' = None /\
  Page.isLoading (Page.ui c') = false /\
  Page.progressInterval (Page.ui c') = false.
Proof.
  intros Hreach Hfl c'. subst c'.
  destruct (page_inv_reachable c Hreach) as (_ & Hp).
  unfold Page.inFlight in Hfl.
  destruct (Page.pending c) as [[f k|req k]|] eqn:E; [| |discriminate].
  - destruct Hp as (_ & values & -> & _).
    assert (Hr1 : Page.reachable (Page.deliverRead ev c)).
    { apply (Page.reachable_step c); [exact Hreach|].
      unfold Page.deliverRead. rewrite E. now apply Page.step_read with (f := f). }
    unfold Page.deliverRead in *. rewrite E in *.
    unfold Page.onSubmit_afterRead in *. destruct ev as [|event]; cbn [Page.fileToBase64] in *.
    + split; [|repeat split; destruct r; reflexivity].
      eapply Page.reachable_step; [exact Hr1|].
      unfold Page.deliverResponse. cbn [Page.launch Page.pending].
      now eapply Page.step_response.
    + split; [exact Hr1 | repeat split].
  - destruct Hp as (-> & _).
    unfold Page.deliverRead. rewrite E.
    split; [|unfold Page.deliverResponse; rewrite E; repeat split; destruct r; reflexivity].
    apply (Page.reachable_step c); [exact Hreach|].
    unfold Page.deliverResponse. rewrite E. now apply Page.step_response with (req := req).
Qed.

Lemma in_flight_submit_ends_witness :
  Page.inFlight Sample.cfg_ticked = true /\
  Page.pending (Page.deliverResponse (JS.Threw (JS.ErrorObj "Unauthorized"))
                  (Page.deliverRead Page.OnLoad Sample.cfg_ticked)) = None.
Proof.
  split; [reflexivity|].
  destruct (in_flight_submit_ends Sample.cfg_ticked Page.OnLoad
              (JS.Threw (JS.ErrorObj "Unauthorized")) sample_run_reachable)
    as (_ & H & _).
  - reflexivity.
  - exact H.
Defined.

(** * Further properties of the flow *)

Section FlowOutcome.
Import Flow.

Variable generate :
  gmap string string -> string -> AnalyzeKLSEReportInput -> JS.Completion JS.Value.
Variable schema_error : list Zod.Issue -> JS.Thrown.

(** The whole of what the flow does on an admitted input. *)
Lemma analyzeKLSEReportFlow_run (raw : JS.Value) (input : AnalyzeKLSEReportInput)
    (s : Server) :
  AnalyzeKLSEReportInputSchema raw = Zod.Valid input ->
  let env' := <[GOOGLE_GENAI_API_KEY := apiKey input]> (env s) in
  let model' := "googleai/" +:+ model_name (geminiModel input) in
  analyzeKLSEReportFlow generate schema_error raw s
  = (match generate env' model' input with
     | JS.Returned out =>
         match AnalyzeKLSEReportOutputSchema out with
         | Zod.Valid o => JS.Returned o
         | Zod.Invalid issues => JS.Threw (schema_error issues)
         end
     | JS.Threw e => JS.Threw e
     end,
     {| env := env';
        trace := trace s ++ [EnvWrite GOOGLE_GENAI_API_KEY (apiKey input);
                             PromptCall model' input env'] |}).
Proof.
  intros H. cbn zeta. unfold analyzeKLSEReportFlow, defineFlow. rewrite H.
  unfold bind. rewrite analyzeKLSEReportFlow_fn_effects. cbn zeta.
  destruct (generate _ _ input) as [out|e]; [|reflexivity].
  destruct (AnalyzeKLSEReportOutputSchema out); reflexivity.
Qed.

Lemma output_schema_valid (out : JS.Value) (o : AnalyzeKLSEReportOutput) :
  AnalyzeKLSEReportOutputSchema out = Zod.Valid o <->
  exists fields, out = JS.VObj fields /\
                 JS.get fields "blogPostHtml" = JS.VStr (blogPostHtml o).
Proof.
  unfold AnalyzeKLSEReportOutputSchema, Zod.object1, describe, Zod.string_.
  split.
  - destruct out as [| | | | |fields]; try discriminate.
    destruct (JS.get fields "blogPostHtml") eqn:E; try discriminate.
    intros H. injection H as <-. exists fields. split; [reflexivity | exact E].
  - intros (fields & -> & E). rewrite E. now destruct o.
Qed.

End FlowOutcome.

(** X10: an input the schema does not admit never reaches the function
    of the flow: the call throws the schema error and the server is left
    exactly as it was - no write to [process.env], no model call. *)
Theorem rejected_input_has_no_effect
    (generate : gmap string string -> string -> Flow.AnalyzeKLSEReportInput ->
                JS.Completion JS.Value)
    (schema_error : list Zod.Issue -> JS.Thrown)
    (raw : JS.Value) (s : Flow.Server) :
  Flow.accepts raw = false ->
  exists issues,
    issues <> [] /\
    Flow.analyzeKLSEReport generate schema_error raw s
    = (JS.Threw (schema_error issues), s).
Proof.
  unfold Flow.accepts, Flow.analyzeKLSEReport, Flow.analyzeKLSEReportFlow, Flow.defineFlow.
  destruct (Flow.AnalyzeKLSEReportInputSchema raw) as [i|issues] eqn:E; [discriminate|].
  intros _. exists issues. split; [|reflexivity].
  intros ->. revert E.
  unfold Flow.AnalyzeKLSEReportInputSchema, Zod.object3, Flow.describe.
  destruct raw as [| | | | |fields]; try discriminate.
  destruct (Zod.string_ (JS.get fields "reportDataUri")) as [u|i1] eqn:E1;
    destruct (geminiModelEnum (JS.get fields "geminiModel")) as [m|i2] eqn:E2;
    destruct (Zod.string_ (JS.get fields "apiKey")) as [k|i3] eqn:E3;
    try discriminate;
    unfold Zod.string_, geminiModelEnum, Zod.enum in E1, E2, E3;
    repeat match goal with
      | H : match ?x with _ => _ end = Zod.Invalid _ |- _ =>
          destruct x; try discriminate H
      | H : Zod.Invalid _ = Zod.Invalid _ |- _ => injection H as <-
      end;
    discriminate.
Qed.

Lemma rejected_input_has_no_effect_witness :
  Flow.accepts Sample.input_unknown_model = false /\
  snd (Flow.analyzeKLSEReport Sample.generate Sample.schema_error
         Sample.input_unknown_model Sample.server) = Sample.server.
Proof.
  split; [reflexivity|].
  destruct (rejected_input_has_no_effect Sample.generate Sample.schema_error
              Sample.input_unknown_model Sample.server) as (issues & _ & E).
  - reflexivity.
  - now rewrite E.
Defined.

(** X11: the flow refuses an object that lacks [reportDataUri],
    [geminiModel] or [apiKey], and one whose [geminiModel] is a string
    other than the two model names. *)
Theorem flow_rejects_incomplete_input (fields : list (string * JS.Value)) :
  JS.get fields "reportDataUri" = JS.VUndefined \/
  JS.get fields "apiKey" = JS.VUndefined \/
  JS.get fields "geminiModel" = JS.VUndefined \/
  (exists g, JS.get fields "geminiModel" = JS.VStr g /\
             g <> "gemini-2.5-pro" /\ g <> "gemini-2.5-flash") ->
  Flow.accepts (JS.VObj fields) = false.
Proof.
  intros H. unfold Flow.accepts.
  destruct (Flow.AnalyzeKLSEReportInputSchema (JS.VObj fields)) as [input|issues] eqn:E;
    [|reflexivity].
  apply input_schema_valid in E.
  destruct E as (fields' & Ef & Hu & Hm & Hk). injection Ef as <-.
  destruct H as [H|[H|[H|(g & Hg & Hp & Hf)]]]; try congruence.
  rewrite Hg in Hm. injection Hm as ->.
  destruct (Flow.geminiModel input); contradiction.
Qed.

Lemma flow_rejects_incomplete_input_witness :
  Flow.accepts Sample.input_unknown_model = false /\
  Flow.accepts (JS.VObj [("reportDataUri", JS.VStr "data:application/pdf;base64,JVBERi0=");
                         ("geminiModel", JS.VStr "gemini-2.5-pro")]) = false.
Proof.
  split.
  - apply flow_rejects_incomplete_input. right. right. right.
    exists "gemini-1.0". repeat split; discriminate.
  - apply flow_rejects_incomplete_input. right. left. reflexivity.
Defined.

(** X12: on an admitted input the flow hands back what the model call
    yields, checked against the output schema: an error thrown by the
    call leaves the flow unchanged; an output object with a string
    [blogPostHtml] is returned as [{blogPostHtml}]; a [null] output is
    not returned - the non-null assertion checks nothing at run time and
    the output schema turns it into a thrown schema error. In all three
    cases the key has been written and the one call has been made. *)
Theorem flow_outcome
    (generate : gmap string string -> string -> Flow.AnalyzeKLSEReportInput ->
                JS.Completion JS.Value)
    (schema_error : list Zod.Issue -> JS.Thrown)
    (raw : JS.Value) (input : Flow.AnalyzeKLSEReportInput) (s : Flow.Server) :
  Flow.AnalyzeKLSEReportInputSchema raw = Zod.Valid input ->
  let env' := <[Flow.GOOGLE_GENAI_API_KEY := Flow.apiKey input]> (Flow.env s) in
  let model' := "googleai/" +:+ model_name (Flow.geminiModel input) in
  let result := fst (Flow.analyzeKLSEReport generate schema_error raw s) in
  (forall e, generate env' model' input = JS.Threw e -> result = JS.Threw e) /\
  (forall fields h,
     generate env' model' input = JS.Returned (JS.VObj fields) ->
     JS.get fields "blogPostHtml" = JS.VStr h ->
     result = JS.Returned {| Flow.blogPostHtml := h |}) /\
  (generate env' model' input = JS.Returned JS.VNull ->
   exists issues, result = JS.Threw (schema_error issues)) /\
  length (Flow.trace (snd (Flow.analyzeKLSEReport generate schema_error raw s)))
  = (length (Flow.trace s) + 2)%nat.
Proof.
  intros H env' model' result. subst result. unfold Flow.analyzeKLSEReport.
  rewrite (analyzeKLSEReportFlow_run generate schema_error raw input s H).
  cbn zeta. fold env' model'. cbn [fst snd Flow.trace].
  split; [|split; [|split]].
  - intros e ->. reflexivity.
  - intros fields h -> Hh.
    assert (E : Flow.AnalyzeKLSEReportOutputSchema (JS.VObj fields)
                = Zod.Valid {| Flow.blogPostHtml := h |}).
    { apply output_schema_valid. exists fields. split; [reflexivity | exact Hh]. }
    now rewrite E.
  - intros ->. eexists. reflexivity.
  - rewrite length_app. reflexivity.
Qed.

Lemma flow_outcome_witness :
  (exists issues,
     fst (Flow.analyzeKLSEReport Sample.generate_null Sample.schema_error
            (Flow.input_value Sample.input) Sample.server)
     = JS.Threw (Sample.schema_error issues)) /\
  fst (Flow.analyzeKLSEReport Sample.generate_unauthorized Sample.schema_error
         (Flow.input_value Sample.input) Sample.server)
  = JS.Threw (JS.ErrorObj "Unauthorized").
Proof.
  split.
  - destruct (flow_outcome Sample.generate_null Sample.schema_error
                (Flow.input_value Sample.input) Sample.input Sample.server)
      as (_ & _ & H & _); [reflexivity|].
    apply H. reflexivity.
  - destruct (flow_outcome Sample.generate_unauthorized Sample.schema_error
                (Flow.input_value Sample.input) Sample.input Sample.server)
      as (H & _); [reflexivity|].
    apply H. reflexivity.
Defined.

(** X13: the flow changes [process.env] in one place only and never
    puts the old value back: after a call on an admitted input the
    environment is the old one with [GOOGLE_GENAI_API_KEY] overwritten by
    the caller's key, also when the model call threw; every other
    variable reads as before. Of two calls in a row the key of the second
    is the one left behind, and the second model call sees only that
    key. *)
Theorem flow_leaves_key_in_environment
    (generate : gmap string string -> string -> Flow.AnalyzeKLSEReportInput ->
                JS.Completion JS.Value)
    (schema_error : list Zod.Issue -> JS.Thrown)
    (raw1 raw2 : JS.Value) (input1 input2 : Flow.AnalyzeKLSEReportInput)
    (s : Flow.Server) :
  Flow.AnalyzeKLSEReportInputSchema raw1 = Zod.Valid input1 ->
  Flow.AnalyzeKLSEReportInputSchema raw2 = Zod.Valid input2 ->
  let s1 := snd (Flow.analyzeKLSEReport generate schema_error raw1 s) in
  let s2 := snd (Flow.analyzeKLSEReport generate schema_error raw2 s1) in
  Flow.env s1 = <[Flow.GOOGLE_GENAI_API_KEY := Flow.apiKey input1]> (Flow.env s) /\
  (forall name, name <> Flow.GOOGLE_GENAI_API_KEY ->
                Flow.env s1 !! name = Flow.env s !! name) /\
  Flow.env s2 = <[Flow.GOOGLE_GENAI_API_KEY := Flow.apiKey input2]> (Flow.env s) /\
  (Flow.trace s2
   = Flow.trace s ++
     [Flow.EnvWrite Flow.GOOGLE_GENAI_API_KEY (Flow.apiKey input1);
      Flow.PromptCall ("googleai/" +:+ model_name (Flow.geminiModel input1)) input1
        (<[Flow.GOOGLE_GENAI_API_KEY := Flow.apiKey input1]> (Flow.env s));
      Flow.EnvWrite Flow.GOOGLE_GENAI_API_KEY (Flow.apiKey input2);
      Flow.PromptCall ("googleai/" +:+ model_name (Flow.geminiModel input2)) input2
        (<[Flow.GOOGLE_GENAI_API_KEY := Flow.apiKey input2]> (Flow.env s))])%list.
Proof.
  intros H1 H2 s1 s2. subst s2 s1. unfold Flow.analyzeKLSEReport.
  rewrite (analyzeKLSEReportFlow_run generate schema_error raw1 input1 s H1).
  cbn zeta. cbn [snd].
  rewrite (analyzeKLSEReportFlow_run generate schema_error raw2 input2 _ H2).
  cbn zeta. cbn [snd Flow.env Flow.trace].
  rewrite insert_insert_eq.
  split; [reflexivity|].
  split; [intros name Hn; now apply lookup_insert_ne|].
  split; [reflexivity|].
  rewrite <- app_assoc. reflexivity.
Qed.

Lemma flow_leaves_key_in_environment_witness :
  Flow.env (snd (Flow.analyzeKLSEReport Sample.generate Sample.schema_error
                   (Flow.input_value Sample.other_input)
                   (snd (Flow.analyzeKLSEReport Sample.generate Sample.schema_error
                           (Flow.input_value Sample.input) Sample.server))))
  !! Flow.GOOGLE_GENAI_API_KEY = Some "k-456".
Proof.
  destruct (flow_leaves_key_in_environment Sample.generate Sample.schema_error
              (Flow.input_value Sample.input) (Flow.input_value Sample.other_input)
              Sample.input Sample.other_input Sample.server) as (_ & _ & E & _).
  - reflexivity.
  - reflexivity.
  - rewrite E. apply lookup_insert_eq.
Defined.

(** * Further properties of the form and of the encoding *)

Section FormFacts.
Import Page.

Lemma formSchema_accepts (k : string) (m : GeminiModel) :
  k <> "" ->
  formSchema (fields_value {| apiKeyField := k; modelField := model_name m |})
  = Zod.Valid {| apiKey := k; model := m |}.
Proof.
  intros Hk. destruct k as [|c k]; [contradiction|]. now destruct m.
Qed.

Lemma fields_eta (fs : Fields) :
  fs = {| apiKeyField := apiKeyField fs; modelField := modelField fs |}.
Proof. now destruct fs. Qed.

End FormFacts.

(** X14: when the API key field is not empty and the model field holds
    one of the two model names, [handleSubmit] clears the form's errors
    and calls the handler with exactly that key and that model. Typing a
    key into the untouched form submits with the default model,
    [gemini-2.5-flash]; choosing a model in the select first submits with
    the chosen one. *)
Theorem handleSubmit_passes_validated_values
    (onValid : Page.FormValues -> Page.State -> Page.Proc)
    (st : Page.State) (m : GeminiModel) :
  Page.apiKeyField (Page.fields (Page.form st)) <> "" ->
  Page.modelField (Page.fields (Page.form st)) = model_name m ->
  Page.handleSubmit onValid st
  = onValid {| Page.apiKey := Page.apiKeyField (Page.fields (Page.form st));
               Page.model := m |}
      (Page.setForm {| Page.fields := Page.fields (Page.form st); Page.errors := [] |} st) /\
  (forall k m',
     k <> "" ->
     Page.handleSubmit onValid (Page.changeApiKey k (Page.changeModel m' st))
     = onValid {| Page.apiKey := k; Page.model := m' |}
         (Page.setForm {| Page.fields := {| Page.apiKeyField := k;
                                            Page.modelField := model_name m' |};
                          Page.errors := [] |}
            (Page.changeApiKey k (Page.changeModel m' st)))) /\
  (forall k,
     k <> "" ->
     Page.form st = Page.defaultForm ->
     Page.handleSubmit onValid (Page.changeApiKey k st)
     = onValid {| Page.apiKey := k; Page.model := Gemini25Flash |}
         (Page.setForm {| Page.fields := {| Page.apiKeyField := k;
                                            Page.modelField := "gemini-2.5-flash" |};
                          Page.errors := [] |}
            (Page.changeApiKey k st))).
Proof.
  intros Hk Hm. split; [|split].
  - unfold Page.handleSubmit.
    rewrite (fields_eta (Page.fields (Page.form st))) at 1. rewrite Hm.
    now rewrite (formSchema_accepts _ m Hk).
  - intros k m' Hk'.
    unfold Page.handleSubmit, Page.changeApiKey, Page.changeModel.
    cbn [Page.form Page.setForm Page.fields Page.modelField Page.apiKeyField].
    rewrite (formSchema_accepts k m' Hk'). reflexivity.
  - intros k Hk' Hd.
    unfold Page.handleSubmit, Page.changeApiKey.
    cbn [Page.form Page.setForm Page.fields Page.modelField Page.apiKeyField].
    rewrite Hd.
    cbn [Page.defaultForm Page.fields Page.defaultValues Page.modelField Page.apiKeyField].
    change "gemini-2.5-flash" with (model_name Gemini25Flash) at 1.
    rewrite (formSchema_accepts k Gemini25Flash Hk'). reflexivity.
Qed.

Lemma handleSubmit_passes_validated_values_witness :
  Page.requests (Page.drive (Sample.answered "<p>x</p>")
                   (Page.handleSubmit Page.onSubmit Sample.filled))
  = Page.requests (Page.drive (Sample.answered "<p>x</p>")
                     (Page.onSubmit Sample.values
                        (Page.setForm {| Page.fields := Page.fields (Page.form Sample.filled);
                                         Page.errors := [] |} Sample.filled))).
Proof.
  destruct (handleSubmit_passes_validated_values Page.onSubmit Sample.filled Gemini25Flash)
    as (E & _).
  - discriminate.
  - reflexivity.
  - now rewrite E.
Defined.

Section EncodingFacts.
Import Base64.

Lemma string_length_app (a b : string) :
  String.length (a +:+ b) = (String.length a + String.length b)%nat.
Proof.
  induction a as [|c a IH]; [reflexivity|].
  change (String c a +:+ b) with (String c (a +:+ b)).
  cbn [String.length]. now rewrite IH.
Qed.

Lemma string_app_cancel (p a b : string) : p +:+ a = p +:+ b -> a = b.
Proof.
  induction p as [|c p IH]; [trivial|].
  change (String c p +:+ a) with (String c (p +:+ a)).
  change (String c p +:+ b) with (String c (p +:+ b)).
  intros H. injection H as H. now apply IH.
Qed.

Lemma encode_length_bounded (n : nat) :
  forall bs : list byte,
    (length bs <= n)%nat ->
    String.length (encode bs) = (4 * ((length bs + 2) / 3))%nat.
Proof.
  induction n as [n IH] using lt_wf_ind.
  intros [|a [|b [|c rest]]] Hlen; try reflexivity.
  cbn [encode String.length length] in *.
  rewrite (IH (length rest)) by lia.
  replace (S (S (S (length rest))) + 2)%nat with ((length rest + 2) + 1 * 3)%nat by lia.
  rewrite Nat.div_add by lia. lia.
Qed.

Lemma encode_length (bs : list byte) :
  String.length (encode bs) = (4 * ((length bs + 2) / 3))%nat.
Proof. apply (encode_length_bounded (length bs)). lia. Qed.

Lemma encode_injective (bs1 bs2 : list byte) : encode bs1 = encode bs2 -> bs1 = bs2.
Proof.
  intros H. apply (f_equal decode) in H. rewrite !decode_encode in H.
  now injection H.
Qed.

End EncodingFacts.

(** X15: the data URI [fileToBase64] produces for a PDF of [n] bytes is
    28 characters of header followed by four characters for every
    started group of three bytes: its length is [28 + 4 * ceil(n / 3)].
    An empty file gives the bare header. *)
Theorem data_uri_length (f : Page.File) :
  Page.type f = "application/pdf" ->
  exists uri,
    Page.fileToBase64 f Page.OnLoad = JS.Returned uri /\
    String.length uri = (28 + 4 * ((length (Page.content f) + 2) / 3))%nat /\
    (Page.content f = [] -> uri = "data:application/pdf;base64,").
Proof.
  intros Ht. exists (Page.readAsDataURL f). split; [reflexivity|].
  rewrite (readAsDataURL_pdf f Ht). split.
  - rewrite string_length_app, encode_length. reflexivity.
  - intros ->. reflexivity.
Qed.

Lemma data_uri_length_witness :
  exists uri,
    Page.fileToBase64 Sample.report_pdf Page.OnLoad = JS.Returned uri /\
    String.length uri = 36%nat.
Proof.
  destruct (data_uri_length Sample.report_pdf) as (uri & E & Hl & _).
  - reflexivity.
  - exists uri. split; [exact E | exact Hl].
Defined.

(** X16: [fileToBase64] loses nothing: two files of the same declared
    type that are read to the same data URI have the same bytes. *)
Theorem fileToBase64_injective (f g : Page.File) :
  Page.type f = Page.type g ->
  Page.fileToBase64 f Page.OnLoad = Page.fileToBase64 g Page.OnLoad ->
  Page.content f = Page.content g.
Proof.
  intros Ht H. cbn in H. injection H as H.
  unfold Page.readAsDataURL, Page.mediaType in H. rewrite Ht in H.
  apply string_app_cancel in H.
  apply string_app_cancel in H.
  apply string_app_cancel in H.
  now apply encode_injective.
Qed.

Lemma fileToBase64_injective_witness :
  Page.fileToBase64 Sample.report_pdf Page.OnLoad
  <> Page.fileToBase64 Sample.second_pdf Page.OnLoad.
Proof.
  intros H.
  assert (E : Page.content Sample.report_pdf = Page.content Sample.second_pdf).
  { apply fileToBase64_injective; [reflexivity | exact H]. }
  discriminate E.
Defined.

(** * The page and the flow together *)

(** X17: a validated submit of a selected file, with the flow as the
    upstream, sends one request; on the server the flow admits it,
    writes the key typed into the form into [process.env] and calls the
    model the form chose, under that key; and when the model's output is
    an object with a string [blogPostHtml], that string is what the page
    ends up holding as its result. *)
Theorem submit_through_flow
    (generate : gmap string string -> string -> Flow.AnalyzeKLSEReportInput ->
                JS.Completion JS.Value)
    (schema_error : list Zod.Issue -> JS.Thrown)
    (s : Flow.Server) (st : Page.State) (f : Page.File) (m : GeminiModel)
    (sch : Page.Schedule) :
  Page.file st = Some f ->
  Page.apiKeyField (Page.fields (Page.form st)) <> "" ->
  Page.modelField (Page.fields (Page.form st)) = model_name m ->
  Page.readEnds sch = Page.OnLoad ->
  Page.upstream sch = App.serverAction generate schema_error s ->
  let k := Page.apiKeyField (Page.fields (Page.form st)) in
  let req := {| Flow.reportDataUri := Page.readAsDataURL f;
                Flow.geminiModel := m;
                Flow.apiKey := k |} in
  let env' := <[Flow.GOOGLE_GENAI_API_KEY := k]> (Flow.env s) in
  let o := Page.drive sch (Page.handleSubmit Page.onSubmit st) in
  Page.requests o = [req] /\
  (Flow.trace (snd (App.callFlow generate schema_error s req))
   = Flow.trace s ++
     [Flow.EnvWrite Flow.GOOGLE_GENAI_API_KEY k;
      Flow.PromptCall ("googleai/" +:+ model_name m) req env'])%list /\
  (forall fields h,
     generate env' ("googleai/" +:+ model_name m) req = JS.Returned (JS.VObj fields) ->
     JS.get fields "blogPostHtml" = JS.VStr h ->
     Page.analysisResult (Page.final o) = Some h /\
     Page.error (Page.final o) = None).
Proof.
  intros Hf Hk Hm Hr Hu. cbn zeta.
  assert (Hhs : Page.handleSubmit Page.onSubmit st
                = Page.onSubmit
                    {| Page.apiKey := Page.apiKeyField (Page.fields (Page.form st));
                       Page.model := m |}
                    (Page.setForm {| Page.fields := Page.fields (Page.form st);
                                     Page.errors := [] |} st)).
  { unfold Page.handleSubmit.
    rewrite (fields_eta (Page.fields (Page.form st))) at 1. rewrite Hm.
    now rewrite (formSchema_accepts _ m Hk). }
  rewrite Hhs. clear Hhs.
  set (k := Page.apiKeyField (Page.fields (Page.form st))) in *.
  set (req := {| Flow.reportDataUri := Page.readAsDataURL f;
                 Flow.geminiModel := m; Flow.apiKey := k |}).
  set (env' := <[Flow.GOOGLE_GENAI_API_KEY := k]> (Flow.env s)).
  pose proof (analyzeKLSEReportFlow_run generate schema_error
                (Flow.input_value req) req s (input_value_valid req)) as Hflow.
  cbn zeta in Hflow. cbn [Flow.apiKey Flow.geminiModel req] in Hflow.
  fold req env' in Hflow.
  set (st0 := Page.setForm _ st).
  assert (Hf0 : Page.file st0 = Some f) by exact Hf.
  destruct (onSubmit_cases {| Page.apiKey := k; Page.model := m |} st0 f sch Hf0)
    as (p & b & H).
  cbn zeta in H. cbn [Page.apiKey Page.model] in H. fold req in H.
  split; [|split].
  - destruct H as [(ev & Hev & _)|[(e & _ & _ & E)|(r & _ & _ & E)]].
    + congruence.
    + rewrite E. reflexivity.
    + rewrite E. reflexivity.
  - unfold App.callFlow, Flow.analyzeKLSEReport. now rewrite Hflow.
  - intros fields h Hg Hh.
    assert (Hres : Page.upstream sch req = JS.Returned {| Flow.blogPostHtml := h |}).
    { rewrite Hu. unfold App.serverAction, App.callFlow, Flow.analyzeKLSEReport.
      rewrite Hflow. cbn [fst]. rewrite Hg.
      assert (E : Flow.AnalyzeKLSEReportOutputSchema (JS.VObj fields)
                  = Zod.Valid {| Flow.blogPostHtml := h |}).
      { apply output_schema_valid. exists fields. split; [reflexivity | exact Hh]. }
      now rewrite E. }
    destruct H as [(ev & Hev & _)|[(e & _ & He & _)|(r & _ & Hret & E)]];
      [congruence | congruence |].
    rewrite Hres in Hret. injection Hret as <-. rewrite E. split; reflexivity.
Qed.

Lemma submit_through_flow_witness :
  Page.analysisResult
    (Page.final (Page.drive Sample.through_flow
                   (Page.handleSubmit Page.onSubmit Sample.filled)))
  = Some "<div>ok</div>".
Proof.
  destruct (submit_through_flow Sample.generate Sample.schema_error Sample.server
              Sample.filled Sample.report_pdf Gemini25Flash Sample.through_flow)
    as (_ & _ & H).
  - reflexivity.
  - discriminate.
  - reflexivity.
  - reflexivity.
  - reflexivity.
  - apply (H [("blogPostHtml", JS.VStr "<div>ok</div>")] "<div>ok</div>"); reflexivity.
Defined.

(** X18: a whole round leaves no trace: from the initial state, select
    a PDF, type a key, choose a model, submit, get a post back and press
    "analyse another report" - the page is in its initial state again,
    whatever the file, the key, the model, the post and the number of
    timer ticks were. *)
Theorem successful_round_returns_to_initial
    (f : Page.File) (k : string) (m : GeminiModel) (h : string) (sch : Page.Schedule) :
  Page.type f = "application/pdf" ->
  k <> "" ->
  Page.readEnds sch = Page.OnLoad ->
  Page.upstream sch {| Flow.reportDataUri := Page.readAsDataURL f;
                       Flow.geminiModel := m;
                       Flow.apiKey := k |}
    = JS.Returned {| Flow.blogPostHtml := h |} ->
  let ready := Page.changeModel m (Page.changeApiKey k
                 (Page.handleFileSelect f Page.initialState)) in
  let o := Page.drive sch (Page.handleSubmit Page.onSubmit ready) in
  Page.completion o = JS.Returned tt /\
  Page.analysisResult (Page.final o) = Some h /\
  Page.resetState (Page.final o) = Page.initialState.
Proof.
  intros Ht Hk Hr Hu ready o. subst o ready.
  rewrite (handleFileSelect_pdf f _ Ht).
  unfold Page.handleSubmit, Page.changeModel, Page.changeApiKey.
  cbn [Page.form Page.setForm Page.fields Page.modelField Page.apiKeyField
       Page.setFile Page.setError Page.initialState Page.defaultForm Page.errors].
  rewrite (formSchema_accepts k m Hk).
  match goal with |- context [Page.onSubmit ?v ?s] =>
    destruct (onSubmit_cases v s f sch eq_refl) as (p & b & H) end.
  cbn zeta in H. cbn [Page.apiKey Page.model] in H.
  destruct H as [(ev & Hev & _)|[(e & _ & He & _)|(r & _ & Hret & E)]];
    [congruence | congruence |].
  rewrite Hu in Hret. injection Hret as <-. rewrite E.
  repeat split.
Qed.

Lemma successful_round_returns_to_initial_witness :
  Page.resetState
    (Page.final
       (Page.drive (Sample.answered "<div>ok</div>")
          (Page.handleSubmit Page.onSubmit
             (Page.changeModel Gemini25Pro
                (Page.changeApiKey "k-123"
                   (Page.handleFileSelect Sample.report_pdf Page.initialState))))))
  = Page.initialState.
Proof.
  destruct (successful_round_returns_to_initial Sample.report_pdf "k-123" Gemini25Pro
              "<div>ok</div>" (Sample.answered "<div>ok</div>")) as (_ & _ & E).
  - reflexivity.
  - discriminate.
  - reflexivity.
  - reflexivity.
  - exact E.
Defined.

(** * Trying again *)

Section Resubmit.
Import Page.

Lemma handleSubmit_valid (st : State) (m : GeminiModel) :
  apiKeyField (fields (form st)) <> "" ->
  modelField (fields (form st)) = model_name m ->
  handleSubmit onSubmit st
  = onSubmit {| apiKey := apiKeyField (fields (form st)); model := m |}
      (setForm {| fields := fields (form st); errors := [] |} st).
Proof.
  intros Hk Hm. unfold handleSubmit.
  rewrite (fields_eta (fields (form st))) at 1. rewrite Hm.
  now rewrite (formSchema_accepts _ m Hk).
Qed.

(** Where a submit leaves the selection and the fields of the form. *)
Lemma onSubmit_keeps_inputs (values : FormValues) (st : State) (f : File) (sch : Schedule) :
  file st = Some f ->
  file (final (drive sch (onSubmit values st))) = Some f /\
  form (final (drive sch (onSubmit values st))) = form st /\
  (error (final (drive sch (onSubmit values st))) <> None ->
   showsForm (final (drive sch (onSubmit values st))) = true).
Proof.
  intros Hf.
  destruct (onSubmit_cases values st f sch Hf) as (p & b & H). cbn zeta in H.
  destruct H as [(ev & _ & E)|[(e & _ & _ & E)|(r & _ & _ & E)]]; rewrite E;
    cbn [final]; repeat split; try assumption.
  intros H. now contradiction H.
Qed.

End Resubmit.

(** X19: nothing about a submit is final: after a first validated
    submit has ended - whichever way - the file is still selected and the
    fields still hold the key and the model, so a second submit sends the
    same request again; if the first one failed the form is on display
    for it, and if the second one succeeds the old error is gone and the
    new post is the result. *)
Theorem resubmit_after_failure
    (st : Page.State) (f : Page.File) (m : GeminiModel) (sch1 sch2 : Page.Schedule) :
  Page.file st = Some f ->
  Page.apiKeyField (Page.fields (Page.form st)) <> "" ->
  Page.modelField (Page.fields (Page.form st)) = model_name m ->
  Page.readEnds sch2 = Page.OnLoad ->
  let req := {| Flow.reportDataUri := Page.readAsDataURL f;
                Flow.geminiModel := m;
                Flow.apiKey := Page.apiKeyField (Page.fields (Page.form st)) |} in
  let st1 := Page.final (Page.drive sch1 (Page.handleSubmit Page.onSubmit st)) in
  let o2 := Page.drive sch2 (Page.handleSubmit Page.onSubmit st1) in
  (Page.error st1 <> None -> Page.showsForm st1 = true) /\
  Page.requests o2 = [req] /\
  (forall h,
     Page.upstream sch2 req = JS.Returned {| Flow.blogPostHtml := h |} ->
     Page.analysisResult (Page.final o2) = Some h /\
     Page.error (Page.final o2) = None).
Proof.
  intros Hf Hk Hm Hr. cbn zeta.
  rewrite (handleSubmit_valid st m Hk Hm).
  set (values := {| Page.apiKey := _; Page.model := m |}).
  set (st0 := Page.setForm _ st).
  assert (Hf0 : Page.file st0 = Some f) by exact Hf.
  destruct (onSubmit_keeps_inputs values st0 f sch1 Hf0) as (Hf1 & Hform & Hshow).
  set (st1 := Page.final (Page.drive sch1 (Page.onSubmit values st0))) in *.
  split; [exact Hshow|].
  assert (Hfields : Page.fields (Page.form st1) = Page.fields (Page.form st))
    by now rewrite Hform.
  assert (Hk1 : Page.apiKeyField (Page.fields (Page.form st1)) <> "")
    by now rewrite Hfields.
  assert (Hm1 : Page.modelField (Page.fields (Page.form st1)) = model_name m)
    by now rewrite Hfields.
  rewrite (handleSubmit_valid st1 m Hk1 Hm1). rewrite Hfields. fold values.
  set (st2 := Page.setForm _ st1).
  assert (Hf2 : Page.file st2 = Some f) by exact Hf1.
  destruct (onSubmit_cases values st2 f sch2 Hf2) as (p & b & H). cbn zeta in H.
  destruct H as [(ev & Hev & _)|[(e & _ & He & E)|(r & _ & Hret & E)]];
    [congruence | |]; rewrite E; (split; [reflexivity|]); intros h Hh.
  - subst values. cbn [Page.apiKey Page.model] in He. congruence.
  - subst values. cbn [Page.apiKey Page.model] in Hret.
    rewrite Hh in Hret. injection Hret as <-. split; reflexivity.
Qed.

Lemma resubmit_after_failure_witness :
  Page.requests
    (Page.drive (Sample.answered "<p>x</p>")
       (Page.handleSubmit Page.onSubmit
          (Page.final (Page.drive Sample.unauthorized
                         (Page.handleSubmit Page.onSubmit Sample.filled)))))
  = [{| Flow.reportDataUri := Page.readAsDataURL Sample.report_pdf;
        Flow.geminiModel := Gemini25Flash;
        Flow.apiKey := "k-123" |}].
Proof.
  destruct (resubmit_after_failure Sample.filled Sample.report_pdf Gemini25Flash
              Sample.unauthorized (Sample.answered "<p>x</p>")) as (_ & H & _).
  - reflexivity.
  - discriminate.
  - reflexivity.
  - reflexivity.
  - exact H.
Defined.

(** X20: the timer only ever moves the progress forward, never brings a
    progress of at most 95 up to 100, and touches nothing else: after
    any number of firings the file, the result, the error, the loading
    flag, the form and the toasts are what they were. *)
Theorem ticks_only_advance_progress (n : nat) (st : Page.State) :
  Page.progress st <= Page.progress (Page.ticks n st) /\
  (Page.progress st <= 95 -> Page.progress (Page.ticks n st) <= 99) /\
  Page.file (Page.ticks n st) = Page.file st /\
  Page.analysisResult (Page.ticks n st) = Page.analysisResult st /\
  Page.error (Page.ticks n st) = Page.error st /\
  Page.isLoading (Page.ticks n st) = Page.isLoading st /\
  Page.form (Page.ticks n st) = Page.form st /\
  Page.toasts (Page.ticks n st) = Page.toasts st.
Proof.
  split; [|split].
  - induction n as [|n IH]; [reflexivity|].
    change (Page.ticks (S n) st) with (Page.timerFires (Page.ticks n st)).
    unfold Page.timerFires.
    destruct (Page.progressInterval _); [|exact IH].
    rewrite progress_progressTick. destruct (_ <? 95); lia.
  - intros Hle. induction n as [|n IH]; [cbn; lia|].
    change (Page.ticks (S n) st) with (Page.timerFires (Page.ticks n st)).
    unfold Page.timerFires.
    destruct (Page.progressInterval _); [|exact IH].
    rewrite progress_progressTick.
    destruct (Z.ltb_spec (Page.progress (Page.ticks n st)) 95); lia.
  - destruct (ticks_shape n st) as (p & b & E). rewrite E. repeat split.
Qed.
